(** * mpris.py: a command line client for MPRIS2 media players

    A shallow embedding of [src/mpris.py] (Python 3) and the properties
    its specification states about it.

    - Python integers are [Z]; [%] on integers is [Z.modulo] (the result
      takes the sign of the divisor, as in Python).
    - [/] is Python 3 true division: the operands are integers, the result
      is the binary64 float nearest to the exact quotient.  Floats are
      modelled by the exact dyadic number they hold, [pyfloat], and the
      rounding is written out in [PyFloat].
    - The session bus is the environment of the program, [Bus]; every
      remote operation and every printed line is recorded in a trace of
      [event]s, and exceptions and [exit] are outcomes of the program
      monad [M]. *)

From Stdlib Require Import ZArith String Ascii List Bool Lia DecimalString SpecFloat.
Import ListNotations.
Open Scope string_scope.
Open Scope Z_scope.

(** ** Exceptions and fallible pure code *)

(** A [dbus.exceptions.DBusException]: the error name the peer or the bus
    replied with, and its message. *)
Record dbus_error : Type := mkerr { dbus_name : string; dbus_message : string }.

(** The exception classes the program can meet.  [DataError] stands for
    the [TypeError], [ValueError] or [AttributeError] Python raises on a
    value of an unexpected type; the program has a handler for none of
    them, so they are not told apart. *)
Inductive exn : Type :=
| IndexError
| DBusException (e : dbus_error)
| OverflowError
| ZeroDivisionError
| DataError.

Inductive result (A : Type) : Type :=
| Ok (a : A)
| Err (e : exn).
Arguments Ok {A} a.
Arguments Err {A} e.

Definition rbind {A B : Type} (r : result A) (f : A -> result B) : result B :=
  match r with
  | Ok a => f a
  | Err e => Err e
  end.

Declare Scope result_scope.
Delimit Scope result_scope with result.
Notation "'let?' x ':=' r 'in' k" := (rbind r (fun x => k))
  (at level 10, x name, r at level 100, k at level 200) : result_scope.

(** ** printf-style conversions of integers *)

Module PyFormat.

(** ["%d" % z] *)
Definition fmt_d (z : Z) : string := NilZero.string_of_int (Z.to_int z).

Fixpoint zeros (n : nat) : string :=
  match n with
  | O => ""
  | S n' => "0" ++ zeros n'
  end.

Definition pad (width : nat) (digits : string) : string :=
  zeros (width - String.length digits) ++ digits.

(** ["%0<width>d" % z]: the zeros go between the sign and the digits,
    and the sign counts in the width. *)
Definition fmt_0d (width : nat) (z : Z) : string :=
  if z <? 0 then "-" ++ pad (width - 1) (fmt_d (- z))
  else pad width (fmt_d z).

End PyFormat.

(** ** Python floats (binary64) as exact dyadic numbers *)

Module PyFloat.

(** The float [fmant * 2 ^ fexpo]. *)
Record pyfloat : Type := mkfloat { fmant : Z; fexpo : Z }.

Definition prec : Z := 53.
Definition emin : Z := -1074.
Definition emax : Z := 1024.

(** [2 ^ e] for [0 <= e], and [1] below. *)
Definition pow2 (e : Z) : Z := 2 ^ Z.max 0 e.

(** The integer nearest to [n / d] for [0 <= n] and [0 < d], a tie going
    to the even neighbour. *)
Definition rne (n d : Z) : Z :=
  let q := n / d in
  let r := n mod d in
  if 2 * r <? d then q
  else if d <? 2 * r then q + 1
  else if Z.even q then q else q + 1.

(** [floor (log2 (n / d))] for [0 < n] and [0 < d]. *)
Definition ilog2_ratio (n d : Z) : Z :=
  let k := Z.log2 n - Z.log2 d in
  if d * pow2 k <=? n * pow2 (- k) then k else k - 1.

(** The binary64 float nearest to [n / d], for [0 < n] and [0 < d]: the
    quotient is cut to [prec] bits (fewer in the subnormal range) at
    exponent [e] and rounded there; [None] when the rounded value is
    beyond the largest finite float. *)
Definition round_ratio (n d : Z) : option pyfloat :=
  let e := Z.max (ilog2_ratio n d - (prec - 1)) emin in
  let m := rne (n * pow2 (- e)) (d * pow2 e) in
  if 2 ^ emax <=? m * pow2 e then None else Some (mkfloat m e).

Definition fopp (x : pyfloat) : pyfloat := mkfloat (- fmant x) (fexpo x).

(** [a / b] on integers: CPython's [long_true_divide] returns the
    correctly rounded quotient. *)
Definition truediv (a b : Z) : result pyfloat :=
  if b =? 0 then Err ZeroDivisionError
  else if a =? 0 then Ok (mkfloat 0 0)
  else
    match round_ratio (Z.abs a) (Z.abs b) with
    | None => Err OverflowError
    | Some x => Ok (if Bool.eqb (a <? 0) (b <? 0) then x else fopp x)
    end.

(** [int(x)]: truncation toward zero. *)
Definition to_int (x : pyfloat) : Z :=
  if 0 <=? fexpo x then fmant x * pow2 (fexpo x)
  else Z.quot (fmant x) (pow2 (- fexpo x)).

(** [x % w] for a float [x] and an integer [0 < w] (which converts to a
    float exactly): C's [fmod], which is exact and has the sign of [x],
    and, when that is negative, the float addition [mod += w], which
    rounds. *)
Definition fmod_int (x : pyfloat) (w : Z) : pyfloat :=
  let p := pow2 (- fexpo x) in
  let n := fmant x * pow2 (fexpo x) in
  let r := Z.rem n (w * p) in
  if 0 <=? r then mkfloat r (Z.min 0 (fexpo x))
  else
    match round_ratio (r + w * p) p with
    | Some y => y
    | None => mkfloat w 0
    end.

End PyFloat.

(** ** The duration formatter *)

Import PyFormat PyFloat.
Local Open Scope result_scope.

(** [track_length_string], lines 88-104.  [s1] is the second value of the
    variable [s]. *)
Definition track_length_string (length : Z) : result string :=
  let us := length mod 1000 in
  let? q := truediv length 1000 in
  let ms := to_int (fmod_int q 1000) in
  let? f := truediv length 1000000 in
  let s := to_int f in
  let? g := truediv s 60 in
  let minutes := to_int g in
  let s1 := s - minutes * 60 in
  if negb (us =? 0) then
    Ok (fmt_d minutes ++ ":" ++ fmt_0d 2 s1 ++ "." ++ fmt_0d 3 ms ++ fmt_0d 3 us)
  else if negb (ms =? 0) then
    Ok (fmt_d minutes ++ ":" ++ fmt_0d 2 s1 ++ "." ++ fmt_0d 3 ms)
  else
    Ok (fmt_d minutes ++ ":" ++ fmt_0d 2 s1).

(** The formatter as the specification words it: every division is the
    integer (floor) division. *)
Definition spec_track_length_string (length : Z) : string :=
  let us := length mod 1000 in
  let ms := (length / 1000) mod 1000 in
  let s := length / 1000000 in
  let minutes := s / 60 in
  let seconds := s - minutes * 60 in
  if negb (us =? 0) then
    fmt_d minutes ++ ":" ++ fmt_0d 2 seconds ++ "." ++ fmt_0d 3 ms ++ fmt_0d 3 us
  else if negb (ms =? 0) then
    fmt_d minutes ++ ":" ++ fmt_0d 2 seconds ++ "." ++ fmt_0d 3 ms
  else
    fmt_d minutes ++ ":" ++ fmt_0d 2 seconds.

(** ** Values received over the bus *)

(** A value as dbus-python hands it to the program.  [VInt] is any of the
    integer types, [VStr] a string (its UTF-8 bytes), [VList] an
    array and [VDict] a dictionary with string keys, kept in the order of
    its keys.  Python's [None] is the [None] of [option variant].
    Doubles are left out. *)
#[local] Set Warnings "-register-all".
Inductive variant : Type :=
| VInt (z : Z)
| VBool (b : bool)
| VStr (s : string)
| VList (l : list variant)
| VDict (d : list (string * variant)).

(** Truth value of a Python object, as [if x:] and [x or y] test it. *)
Definition truthy (x : option variant) : bool :=
  match x with
  | None => false
  | Some (VInt z) => negb (z =? 0)
  | Some (VBool b) => b
  | Some (VStr s) => negb (String.eqb s "")
  | Some (VList l) => match l with [] => false | _ :: _ => true end
  | Some (VDict d) => match d with [] => false | _ :: _ => true end
  end.

(** [x or y] *)
Definition py_or (x y : option variant) : option variant :=
  if truthy x then x else y.

(** [d.get(k)]: the value of the first entry with key [k]. *)
Fixpoint dict_get (d : list (string * variant)) (k : string) : option variant :=
  match d with
  | [] => None
  | (k', v) :: d' => if String.eqb k' k then Some v else dict_get d' k
  end.

(** [meta.get(k)] on a received value: only a dictionary has [get]. *)
Definition meta_get (meta : variant) (k : string) : result (option variant) :=
  match meta with
  | VDict d => Ok (dict_get d k)
  | _ => Err DataError
  end.

(** [meta.keys()] *)
Definition meta_keys (meta : variant) : result (list string) :=
  match meta with
  | VDict d => Ok (map fst d)
  | _ => Err DataError
  end.

(** The integer an arithmetic operator sees in a value; dbus-python's
    Boolean is an integer type. *)
Definition as_int (v : variant) : result Z :=
  match v with
  | VInt z => Ok z
  | VBool b => Ok (Z.b2z b)
  | _ => Err DataError
  end.

(** [track_length_string(v)] called on a received value. *)
Definition track_length_string_of (v : variant) : result string :=
  let? z := as_int v in track_length_string z.

(** [l[i]] on a Python list: a negative index counts from the end. *)
Definition py_index {A : Type} (l : list A) (i : Z) : result A :=
  let n := Z.of_nat (List.length l) in
  let j := if i <? 0 then i + n else i in
  if (0 <=? j) && (j <? n) then
    match nth_error l (Z.to_nat j) with
    | Some x => Ok x
    | None => Err IndexError
    end
  else Err IndexError.

(** [s.endswith(suffix)] *)
Definition endswith (s suffix : string) : bool :=
  let n := String.length s in
  let k := String.length suffix in
  (k <=? n)%nat && String.eqb (substring (n - k) k s) suffix.

(** Whether a byte continues a UTF-8 sequence (its bits are 10xxxxxx). *)
Definition utf8_continuation (c : ascii) : bool :=
  match c with
  | Ascii _ _ _ _ _ _ b6 b7 => b7 && negb b6
  end.

Definition starts_with_continuation (s : string) : bool :=
  match s with
  | String c _ => utf8_continuation c
  | EmptyString => false
  end.

(** The characters of a Python string, each as a string.  A string is
    held as its UTF-8 bytes; a character is a byte that is not a
    continuation byte together with the continuation bytes that follow
    it. *)
Fixpoint utf8_chars (s : string) : list string :=
  match s with
  | EmptyString => []
  | String c rest =>
      if starts_with_continuation rest then
        match utf8_chars rest with
        | first :: others => String c first :: others
        | [] => [String c ""]
        end
      else String c "" :: utf8_chars rest
  end.

(** The elements [deque(x)] takes from an iterable [x]: the elements of
    a list, the characters of a string, the keys of a dictionary. *)
Definition py_iter (x : variant) : result (list variant) :=
  match x with
  | VList l => Ok l
  | VStr s => Ok (map VStr (utf8_chars s))
  | VDict d => Ok (map (fun kv => VStr (fst kv)) d)
  | VInt _ | VBool _ => Err DataError
  end.

(** [a + b]: the program only ever adds strings. *)
Definition py_add (a b : variant) : result variant :=
  match a, b with
  | VStr x, VStr y => Ok (VStr (x ++ y))
  | _, _ => Err DataError
  end.

Definition dquote : string := String "034"%char "".
Definition tab : string := String "009"%char "".

(** ** The session bus, effects and the program monad *)

Inductive reply (A : Type) : Type :=
| Reply (a : A)
| Fault (e : dbus_error).
Arguments Reply {A} a.
Arguments Fault {A} e.

(** What the program can observe of dbus-python and the session bus in
    one run: the registered names, and the answer to each property read
    and to each call of a player method (service, interface or method,
    then the property or the arguments).  A run reads no property and calls no method
    twice, so a function of the request is as general as a stateful
    peer. *)
Record Bus : Type := mkbus {
  list_names : list string;
  properties_Get : string -> string -> string -> reply variant;
  player_call : string -> string -> list string -> reply unit;
  (** [str(v)] of a received value that is not a string: dbus-python's
      [repr], which shows type information the model does not keep. *)
  value_repr : variant -> string
}.

(** What a run does, in order: the lines it prints and the requests it
    sends. *)
Inductive event : Type :=
| EPrint (line : string)
| EListNames
| EGetObject (service : string)
| EGet (service interface property : string)
| ECall (service method : string) (args : list string).

(** How a computation ends: with a value, by [exit(code)], or with an
    exception. *)
Inductive outcome (A : Type) : Type :=
| Ret (a : A)
| Exit (code : Z)
| Raise (e : exn).
Arguments Ret {A} a.
Arguments Exit {A} code.
Arguments Raise {A} e.

Definition M (A : Type) : Type := (list event * outcome A)%type.

Definition ret {A : Type} (a : A) : M A := ([], Ret a).

Definition bind {A B : Type} (m : M A) (k : A -> M B) : M B :=
  match m with
  | (t, Ret a) => let (t', o) := k a in ((t ++ t')%list, o)
  | (t, Exit c) => (t, Exit c)
  | (t, Raise e) => (t, Raise e)
  end.

Declare Scope prog_scope.
Delimit Scope prog_scope with prog.
Notation "x <- m ;; k" := (bind m (fun x => k))
  (at level 61, m at next level, right associativity) : prog_scope.
Notation "m ;; k" := (bind m (fun _ => k))
  (at level 61, right associativity) : prog_scope.
Local Open Scope prog_scope.

Definition print (line : string) : M unit := ([EPrint line], Ret tt).
Definition exit {A : Type} (code : Z) : M A := ([], Exit code).
Definition raise {A : Type} (e : exn) : M A := ([], Raise e).

Definition lift {A : Type} (r : result A) : M A :=
  match r with
  | Ok a => ret a
  | Err e => raise e
  end.

(** [try: body except ...: handler]: [handler e] is [None] when no
    [except] clause matches [e].  [exit] is not an exception any clause
    of the program matches. *)
Definition try_except {A : Type} (body : M A) (handler : exn -> option (M A)) : M A :=
  match body with
  | (t, Raise e) =>
      match handler e with
      | Some h => let (t', o) := h in ((t ++ t')%list, o)
      | None => (t, Raise e)
      end
  | _ => body
  end.

(** [for x in l: body x] *)
Fixpoint for_each {A : Type} (l : list A) (body : A -> M unit) : M unit :=
  match l with
  | [] => ret tt
  | x :: l' => body x ;; for_each l' body
  end.

(** The process exit status of a finished run: an uncaught exception ends
    the interpreter with status 1. *)
Definition exit_status (o : outcome unit) : Z :=
  match o with
  | Ret _ => 0
  | Exit c => c
  | Raise _ => 1
  end.

Definition prints (t : list event) : list string :=
  flat_map (fun ev => match ev with EPrint l => [l] | _ => [] end) t.

(** The events that reach a player: binding its object, reading a
    property, calling a method. *)
Definition player_event (ev : event) : bool :=
  match ev with
  | EGetObject _ | EGet _ _ _ | ECall _ _ _ => true
  | EPrint _ | EListNames => false
  end.

(** ["%s" % x] and [print(x)] *)
Definition py_str (bus : Bus) (x : option variant) : string :=
  match x with
  | None => "None"
  | Some (VStr s) => s
  | Some v => value_repr bus v
  end.

(** ["%s" % b] for a Python [bool] *)
Definition bool_str (b : bool) : string := if b then "True" else "False".

(** [str(ex)] for a [DBusException] *)
Definition error_str (e : dbus_error) : string :=
  dbus_name e ++ ": " ++ dbus_message e.

(** ** class MprisService *)

Module MprisService.

Definition mpris_base : string := "org.mpris.MediaPlayer2".
Definition player_interface : string := mpris_base ++ ".Player".
Definition tracklist_interface : string := mpris_base ++ ".TrackList".
Definition playlists_interface : string := mpris_base ++ ".Playlists".
Definition properties_interface : string := "org.freedesktop.DBus.Properties".

(** The object: its service name, and for each optional interface
    whether the attribute holds an interface ([true]) or [None]
    ([false]).  The proxy, [player] and [properties] are bound to [name]
    and never change. *)
Record t : Type := mk { name : string; playlists : bool; tracklist : bool }.

(** [self.properties.Get(interface, name)] *)
Definition Get (bus : Bus) (self : t) (interface prop : string) : M variant :=
  ([EGet (name self) interface prop],
   match properties_Get bus (name self) interface prop with
   | Reply v => Ret v
   | Fault e => Raise (DBusException e)
   end).

Definition get_player_property (bus : Bus) (self : t) (prop : string) : M variant :=
  Get bus self player_interface prop.
Definition get_playlists_property (bus : Bus) (self : t) (prop : string) : M variant :=
  Get bus self playlists_interface prop.
Definition get_tracklist_property (bus : Bus) (self : t) (prop : string) : M variant :=
  Get bus self tracklist_interface prop.

(** [self.player.Method(args)] *)
Definition player_method (bus : Bus) (self : t) (method : string) (args : list string) : M unit :=
  ([ECall (name self) method args],
   match player_call bus (name self) method args with
   | Reply _ => Ret tt
   | Fault e => Raise (DBusException e)
   end).

(** The clause [except dbus.exceptions.DBusException: h] *)
Definition except_DBusException {A : Type} (h : M A) (e : exn) : option (M A) :=
  match e with
  | DBusException _ => Some h
  | _ => None
  end.

(** [__init__], lines 38-61.  Binding the proxy and the four interfaces
    sends nothing that can fail for a name the bus has just listed; the
    two probes follow. *)
Definition __init__ (bus : Bus) (servicename : string) : M t :=
  ([EGetObject servicename], Ret tt) ;;
  let self := mk servicename true true in
  self <- try_except
            (get_playlists_property bus self "PlaylistCount" ;; ret self)
            (except_DBusException (ret (mk (name self) false (tracklist self)))) ;;
  self <- try_except
            (get_tracklist_property bus self "CanEditTracks" ;; ret self)
            (except_DBusException (ret (mk (name self) (playlists self) false))) ;;
  ret self.

End MprisService.

(** [get_services], lines 76-86 *)
Definition get_services (bus : Bus) : M (list string) :=
  ([EListNames],
   Ret (filter (String.prefix MprisService.mpris_base) (list_names bus))).

(** [_list_commands], lines 106-113 *)
Definition _list_commands : M unit :=
  print "The following commands are supported:" ;;
  print (tab ++ "status" ++ tab ++ "show player status") ;;
  print (tab ++ "toggle" ++ tab ++ "toggle play/pause state") ;;
  print (tab ++ "stop" ++ tab ++ "stop playback") ;;
  print (tab ++ "play" ++ tab ++ "start playback") ;;
  print (tab ++ "pause" ++ tab ++ "pause playback") ;;
  print (tab ++ "open URI" ++ tab ++ "open media from URI and playback").

(** ** The main program *)

(** The parsed command line, lines 120-134. *)
Record Args : Type := mkargs {
  command : string;
  args : list string;
  service : Z;
  verbose : bool;
  commands : bool
}.

(** Lines 141-146: the listing of the services. *)
Fixpoint list_services_from (i : Z) (services : list string) : M unit :=
  match services with
  | [] => ret tt
  | s :: rest =>
      print ("  " ++ fmt_d i ++ ": " ++ s) ;;
      list_services_from (i + 1) rest
  end.

(** The clause [except IndexError: h] *)
Definition except_IndexError {A : Type} (h : M A) (e : exn) : option (M A) :=
  match e with
  | IndexError => Some h
  | _ => None
  end.

(** Lines 148-159: the selection of the service. *)
Definition select_service (bus : Bus) (a : Args) : M MprisService.t :=
  try_except
    (services <- get_services bus ;;
     s <- lift (py_index services (service a)) ;;
     svc <- MprisService.__init__ bus s ;;
     (if verbose a then
        print ("selected service " ++ MprisService.name svc) ;;
        print ("  playlists support:" ++ tab ++ bool_str (MprisService.playlists svc)) ;;
        print ("  tracklist support:" ++ tab ++ bool_str (MprisService.tracklist svc))
      else ret tt) ;;
     ret svc)
    (except_IndexError
       (print ("MPRIS2 service no. " ++ fmt_d (service a) ++ " not found.") ;;
        exit 1)).

(** Lines 168-172: the duration string. *)
Definition len_str (meta pos : variant) : result string :=
  (let? length := meta_get meta "mpris:length" in
   if truthy length then
     match length with
     | Some l =>
         let? elapsed := track_length_string_of pos in
         let? total := track_length_string_of l in
         Ok ("(" ++ elapsed ++ "/" ++ total ++ ")")
     | None => Ok ""
     end
   else Ok "")%result.

(** Line 173: the title.  Both [get]s are total on a dictionary, so
    evaluating the second one regardless of the first changes nothing. *)
Definition title_of (meta : variant) : result (option variant) :=
  (let? title := meta_get meta "xesam:title" in
   let? url := meta_get meta "xesam:url" in
   Ok (py_or title url))%result.

(** Lines 179-180: the loop over the rest of the deque. *)
Fixpoint join_artists (artist : variant) (artists : list variant) : result variant :=
  match artists with
  | [] => Ok artist
  | next :: rest =>
      (let? a := py_add artist (VStr ", ") in
       let? b := py_add a next in
       join_artists b rest)%result
  end.

(** Lines 174-180: the artist. *)
Definition artist_of (meta : variant) : result variant :=
  (let? artists := meta_get meta "xesam:artist" in
   if truthy artists then
     match artists with
     | Some x =>
         let? queue := py_iter x in
         match queue with
         | first :: rest => join_artists first rest
         | [] => Err IndexError
         end
     | None => Ok (VStr "[Unknown]")
     end
   else Ok (VStr "[Unknown]"))%result.

(** Lines 168-182: the line the status command prints for a player that
    is playing or paused. *)
Definition status_line (bus : Bus) (status meta pos : variant) : result string :=
  (let? l := len_str meta pos in
   let? title := title_of meta in
   let? artist := artist_of meta in
   Ok (py_str bus (Some status) ++ ": " ++ dquote ++ py_str bus title ++ dquote
       ++ " by " ++ py_str bus (Some artist) ++ " " ++ l))%result.

(** Lines 183-186: the raw listing. *)
Definition raw_listing (bus : Bus) (meta : variant) : M unit :=
  print "Raw metadata listing:" ;;
  keys <- lift (meta_keys meta) ;;
  for_each keys
    (fun k =>
       v <- lift (meta_get meta k) ;;
       print ("  " ++ k ++ tab ++ "= " ++ py_str bus v)).

(** [status == 'Playing' or status == 'Paused'] *)
Definition playing_or_paused (status : variant) : bool :=
  match status with
  | VStr s => String.eqb s "Playing" || String.eqb s "Paused"
  | _ => false
  end.

(** Lines 163-188: the status command. *)
Definition status_command (bus : Bus) (a : Args) (svc : MprisService.t) : M unit :=
  status <- MprisService.get_player_property bus svc "PlaybackStatus" ;;
  if playing_or_paused status then
    meta <- MprisService.get_player_property bus svc "Metadata" ;;
    pos <- MprisService.get_player_property bus svc "Position" ;;
    line <- lift (status_line bus status meta pos) ;;
    print line ;;
    if verbose a then raw_listing bus meta else ret tt
  else
    print (py_str bus (Some status)).

(** Lines 205-211: the handler of the open command. *)
Definition open_handler (svc : MprisService.t) (e : exn) : option (M unit) :=
  match e with
  | DBusException ex =>
      Some ((if endswith (dbus_name ex) "UnknownMethod" then
               print ("Error: Service " ++ MprisService.name svc
                      ++ " does not support opening URIs via MPRIS2.")
             else
               print ("Unexpected error: " ++ error_str ex)) ;;
            exit 1)
  | _ => None
  end.

(** Lines 202-211: the open command. *)
Definition open_command (bus : Bus) (a : Args) (svc : MprisService.t) : M unit :=
  try_except
    (uri <- lift (py_index (args a) 0) ;;
     print ("opening " ++ uri) ;;
     uri <- lift (py_index (args a) 0) ;;
     MprisService.player_method bus svc "OpenUri" [uri])
    (open_handler svc).

(** Lines 161-214: the dispatch on the command word. *)
Definition run_command (bus : Bus) (a : Args) (svc : MprisService.t) : M unit :=
  if String.eqb (command a) "status" then status_command bus a svc
  else if String.eqb (command a) "toggle" then
    print "toggling play/pause state" ;;
    MprisService.player_method bus svc "PlayPause" []
  else if String.eqb (command a) "stop" then
    print "stopping playback" ;;
    MprisService.player_method bus svc "Stop" []
  else if String.eqb (command a) "play" then
    print "starting playback" ;;
    MprisService.player_method bus svc "Play" []
  else if String.eqb (command a) "pause" then
    print "pausing playback" ;;
    MprisService.player_method bus svc "Pause" []
  else if String.eqb (command a) "open" then open_command bus a svc
  else
    print ("unknown command: " ++ command a) ;;
    exit 1.

(** Lines 136-214: the program after the command line is parsed. *)
Definition main (bus : Bus) (a : Args) : M unit :=
  if commands a then
    _list_commands ;;
    exit 0
  else if String.eqb (command a) "services" then
    services <- get_services bus ;;
    list_services_from 0 services ;;
    exit 0
  else
    svc <- select_service bus a ;;
    run_command bus a svc.

(** ** Definitions used to state the properties *)

(** The value of a float of the Standard Library's IEEE 754 specification. *)
Definition of_spec_float (x : spec_float) : option pyfloat :=
  match x with
  | S754_zero _ => Some (mkfloat 0 0)
  | S754_finite s m e => Some (mkfloat (if s then Z.neg m else Z.pos m) e)
  | S754_infinity _ | S754_nan => None
  end.

(** Equality of the numbers two floats hold. *)
Definition same_value (x y : option pyfloat) : bool :=
  match x, y with
  | Some a, Some b =>
      let e := Z.min (fexpo a) (fexpo b) in
      fmant a * 2 ^ (fexpo a - e) =? fmant b * 2 ^ (fexpo b - e)
  | None, None => true
  | _, _ => false
  end.

(** [round_ratio] against the binary64 division of the Standard Library,
    on the integers [n] and [d] taken as floats with exponent 0. *)
Definition agrees_with_SFdiv (nd : positive * positive) : bool :=
  let (n, d) := nd in
  same_value (round_ratio (Z.pos n) (Z.pos d))
             (of_spec_float (SFdiv prec emax (S754_finite false n 0) (S754_finite false d 0))).

(** Whether a remote call was answered rather than refused. *)
Definition answered {A : Type} (r : reply A) : bool :=
  match r with
  | Reply _ => true
  | Fault _ => false
  end.

(** The object [MprisService(s)] builds on [bus]. *)
Definition handle_of (bus : Bus) (s : string) : MprisService.t :=
  MprisService.mk s
    (answered (properties_Get bus s MprisService.playlists_interface "PlaylistCount"))
    (answered (properties_Get bus s MprisService.tracklist_interface "CanEditTracks")).

(** The requests [MprisService(s)] sends. *)
Definition init_events (s : string) : list event :=
  [EGetObject s;
   EGet s MprisService.playlists_interface "PlaylistCount";
   EGet s MprisService.tracklist_interface "CanEditTracks"].

(** The lines the selection prints about the selected service when the
    verbose flag is set. *)
Definition banner (a : Args) (svc : MprisService.t) : list event :=
  if verbose a then
    [EPrint ("selected service " ++ MprisService.name svc);
     EPrint ("  playlists support:" ++ tab ++ bool_str (MprisService.playlists svc));
     EPrint ("  tracklist support:" ++ tab ++ bool_str (MprisService.tracklist svc))]
  else [].

(** The message of the selection error. *)
Definition not_found_message (a : Args) : string :=
  "MPRIS2 service no. " ++ fmt_d (service a) ++ " not found.".

(** The two messages of the open command. *)
Definition unsupported_message (svc : MprisService.t) : string :=
  "Error: Service " ++ MprisService.name svc
  ++ " does not support opening URIs via MPRIS2.".
Definition unexpected_message (e : dbus_error) : string :=
  "Unexpected error: " ++ dbus_name e ++ ": " ++ dbus_message e.

(** The services [get_services] discovers on [bus]. *)
Definition discovered (bus : Bus) : list string :=
  filter (String.prefix MprisService.mpris_base) (list_names bus).

(** The artist the specification displays for an artist field that is a
    list of strings ([Some l]) or absent ([None]): the elements joined
    with ", ", and the placeholder when there is none. *)
Definition spec_artist (field : option (list string)) : string :=
  match field with
  | Some (first :: rest) => String.concat ", " (first :: rest)
  | Some [] | None => "[Unknown]"
  end.

(** The entry of the metadata for such an artist field. *)
Definition artist_entry (field : option (list string)) : option variant :=
  option_map (fun l => VList (map VStr l)) field.

(** A dictionary without the key [k]. *)
Definition dict_del (d : list (string * variant)) (k : string) : list (string * variant) :=
  filter (fun kv => negb (String.eqb (fst kv) k)) d.

(** The class of failure the specification wants the probes to swallow,
    in its words "interface/property not found": the two standard D-Bus
    error names for it. *)
Definition spec_not_found_class (e : dbus_error) : bool :=
  String.eqb (dbus_name e) "org.freedesktop.DBus.Error.UnknownInterface"
  || String.eqb (dbus_name e) "org.freedesktop.DBus.Error.UnknownProperty".

(** The duration string with the minutes and the seconds written as
    quotient and remainder: the seconds are in 0..59, the milliseconds
    and microseconds in 0..999. *)
Definition clock_string (length : Z) : string :=
  let minutes := length / 60000000 in
  let seconds := (length / 1000000) mod 60 in
  let ms := (length / 1000) mod 1000 in
  let us := length mod 1000 in
  if negb (us =? 0) then
    fmt_d minutes ++ ":" ++ fmt_0d 2 seconds ++ "." ++ fmt_0d 3 ms ++ fmt_0d 3 us
  else if negb (ms =? 0) then
    fmt_d minutes ++ ":" ++ fmt_0d 2 seconds ++ "." ++ fmt_0d 3 ms
  else
    fmt_d minutes ++ ":" ++ fmt_0d 2 seconds.

(** The service a request is sent to. *)
Definition event_target (ev : event) : option string :=
  match ev with
  | EGetObject s | EGet s _ _ | ECall s _ _ => Some s
  | EPrint _ | EListNames => None
  end.

(** [ev] goes to the service [o], if it goes to any. *)
Definition aimed_at (o : option string) (ev : event) : Prop :=
  match event_target ev with
  | Some s => o = Some s
  | None => True
  end.

(** A computation whose requests all go to [o] and whose [exit], if it
    comes to one, has status 0 or 1. *)
Definition confined {A : Type} (o : option string) (m : M A) : Prop :=
  Forall (aimed_at o) (fst m)
  /\ match snd m with
     | Exit c => c = 0 \/ c = 1
     | Ret _ | Raise _ => True
     end.

(** The service the index of the command line selects, if any. *)
Definition selected (bus : Bus) (a : Args) : option string :=
  match py_index (discovered bus) (service a) with
  | Ok s => Some s
  | Err _ => None
  end.

(** The command words the dispatch knows, and "services". *)
Definition known_commands : list string :=
  ["services"; "status"; "toggle"; "stop"; "play"; "pause"; "open"].

(** The commands that are one announcement and one call without
    arguments: the word, the line, the method. *)
Definition simple_commands : list (string * (string * string)) :=
  [("toggle", ("toggling play/pause state", "PlayPause"));
   ("stop", ("stopping playback", "Stop"));
   ("play", ("starting playback", "Play"));
   ("pause", ("pausing playback", "Pause"))].

(** The title displayed for a title and a URL that are strings or
    absent. *)
Definition display_title (title url : option string) : string :=
  match title, url with
  | Some (String c t), _ => String c t
  | _, Some u => u
  | _, None => "None"
  end.

(** The characters of a string, each as a string. *)
Definition char_strings (s : string) : list string :=
  map (fun c => String c "") (list_ascii_of_string s).

(** The line of the raw listing for one entry of the metadata. *)
Definition raw_line (bus : Bus) (kv : string * variant) : string :=
  "  " ++ fst kv ++ tab ++ "= " ++ py_str bus (Some (snd kv)).

(** The line of the services listing for the service at position [j]. *)
Definition service_line (j : nat) (s : string) : string :=
  "  " ++ fmt_d (Z.of_nat j) ++ ": " ++ s.

(** Sample data: a bus with two players, the second of which has no
    playlists, refuses OpenUri and is stopped. *)
Module Sample.

Definition vlc : string := "org.mpris.MediaPlayer2.vlc".
Definition mpv : string := "org.mpris.MediaPlayer2.mpv".

Definition unknown_method : dbus_error :=
  mkerr "org.freedesktop.DBus.Error.UnknownMethod" "No such method".
Definition no_reply : dbus_error :=
  mkerr "org.freedesktop.DBus.Error.NoReply" "Message recipient disconnected".

Definition metadata : list (string * variant) :=
  [("xesam:title", VStr "Song");
   ("xesam:artist", VList [VStr "A"; VStr "B"; VStr "C"]);
   ("mpris:length", VInt 0)].

Definition bus : Bus :=
  mkbus
    ["org.freedesktop.DBus"; vlc; ":1.42"; mpv]
    (fun s interface prop =>
       if String.eqb prop "PlaylistCount" then
         if String.eqb s mpv then Fault no_reply else Reply (VInt 2)
       else if String.eqb prop "CanEditTracks" then Reply (VBool false)
       else if String.eqb prop "PlaybackStatus" then
         Reply (VStr (if String.eqb s mpv then "Stopped" else "Playing"))
       else if String.eqb prop "Metadata" then Reply (VDict metadata)
       else Reply (VInt 1500))
    (fun s method _ =>
       if String.eqb method "OpenUri" then
         Fault (if String.eqb s mpv then unknown_method else no_reply)
       else Reply tt)
    (fun _ => "?").

Definition args_of (cmd : string) (rest : list string) (n : Z) (listing : bool) : Args :=
  mkargs cmd rest n false listing.

End Sample.

(** The seven lines of the catalogue of commands, lines 107-113. *)
Definition catalogue : list string :=
  ["The following commands are supported:";
   tab ++ "status" ++ tab ++ "show player status";
   tab ++ "toggle" ++ tab ++ "toggle play/pause state";
   tab ++ "stop" ++ tab ++ "stop playback";
   tab ++ "play" ++ tab ++ "start playback";
   tab ++ "pause" ++ tab ++ "pause playback";
   tab ++ "open URI" ++ tab ++ "open media from URI and playback"].

(** Whether every byte of a string is an ASCII character. *)
Definition all_ascii (s : string) : bool :=
  forallb (fun c => match c with Ascii _ _ _ _ _ _ _ b7 => negb b7 end)
          (list_ascii_of_string s).

(** Sample data: a stopped player asked for its status with the verbose
    flag, and an artist given as a string with a two-byte character
    (E acute, then a). *)
Definition verbose_status : Args := mkargs "status" [] 1 true false.
Definition accented : string := String "195"%char (String "137"%char "a").
Definition e_acute : string := String "195"%char (String "137"%char "").

(** A bus with no name registered on which every request is answered,
    and one on which every request is refused. *)
Definition answering_bus : Bus :=
  mkbus [] (fun _ _ _ => Reply (VInt 0)) (fun _ _ _ => Reply tt) (fun _ => "?").
Definition refusing_bus : Bus :=
  mkbus [] (fun _ _ _ => Fault Sample.no_reply) (fun _ _ _ => Fault Sample.no_reply)
        (fun _ => "?").

(** ** The duration formatter: properties *)

Section FloatLemmas.

Lemma pow2_pos e : 0 < pow2 e.
Proof. unfold pow2. apply Z.pow_pos_nonneg; lia. Qed.

Lemma pow2_nonpos e : e <= 0 -> pow2 e = 1.
Proof. intros H. unfold pow2. rewrite Z.max_l by lia. reflexivity. Qed.

Lemma pow2_nonneg e : 0 <= e -> pow2 e = 2 ^ e.
Proof. intros H. unfold pow2. rewrite Z.max_r by lia. reflexivity. Qed.

(** Rounding a quotient scaled by [P], with [b < 2 * P], stays within
    the [P] integers that truncate to [a / b]. *)
Lemma rne_bounds a b P :
  0 <= a -> 0 < b -> 0 < P -> b < 2 * P ->
  a / b * P <= rne (a * P) b < (a / b + 1) * P.
Proof.
  intros Ha Hb HP HbP. unfold rne.
  pose proof (Z.div_mod (a * P) b ltac:(lia)) as Hn.
  pose proof (Z.mod_pos_bound (a * P) b Hb) as Hr.
  pose proof (Z.div_mod a b ltac:(lia)) as Ha'.
  pose proof (Z.mod_pos_bound a b Hb) as Hr0.
  set (q := a * P / b) in *. set (r := (a * P) mod b) in *.
  set (k := a / b) in *. set (r0 := a mod b) in *.
  assert (E : b * q + r = b * (k * P) + r0 * P) by nia.
  assert (Hlo : k * P <= q) by nia.
  assert (Hhi : q < (k + 1) * P) by nia.
  destruct (2 * r <? b) eqn:H1; [lia|].
  apply Z.ltb_ge in H1.
  assert (q + 1 < (k + 1) * P) by nia.
  destruct (b <? 2 * r); [lia|]. destruct (Z.even q); lia.
Qed.

Lemma ilog2_ratio_range n d :
  Z.log2 n - Z.log2 d - 1 <= ilog2_ratio n d <= Z.log2 n - Z.log2 d.
Proof. unfold ilog2_ratio. destruct (_ <=? _); lia. Qed.

(** [2 ^ ilog2_ratio n d <= n / d], the powers moved to the side where
    they are integers. *)
Lemma ilog2_ratio_lower n d :
  0 < n -> 0 < d ->
  d * pow2 (ilog2_ratio n d) <= n * pow2 (- ilog2_ratio n d).
Proof.
  intros Hn Hd. unfold ilog2_ratio.
  destruct (_ <=? _) eqn:H; [apply Z.leb_le in H; exact H|].
  clear H.
  pose proof (Z.log2_spec n Hn) as [Ln _].
  pose proof (Z.log2_spec d Hd) as [_ Ld].
  pose proof (Z.log2_nonneg n) as Nn. pose proof (Z.log2_nonneg d) as Nd.
  set (la := Z.log2 n) in *. set (lb := Z.log2 d) in *.
  destruct (Z.le_gt_cases 0 (la - lb - 1)) as [Hk|Hk].
  - rewrite (pow2_nonneg (la - lb - 1)) by lia.
    rewrite (pow2_nonpos (- (la - lb - 1))) by lia.
    assert (E : 2 ^ la = 2 ^ Z.succ lb * 2 ^ (la - lb - 1)).
    { rewrite <- Z.pow_add_r by lia. f_equal. lia. }
    assert (0 < 2 ^ (la - lb - 1)) by (apply Z.pow_pos_nonneg; lia).
    nia.
  - rewrite (pow2_nonpos (la - lb - 1)) by lia.
    rewrite (pow2_nonneg (- (la - lb - 1))) by lia.
    assert (E : 2 ^ Z.succ lb = 2 ^ la * 2 ^ (- (la - lb - 1))).
    { rewrite <- Z.pow_add_r by lia. f_equal. lia. }
    assert (0 < 2 ^ (- (la - lb - 1))) by (apply Z.pow_pos_nonneg; lia).
    nia.
Qed.

(** Below [2 ^ 53] the rounding of a quotient never reaches the next
    integer: the float [a / b] truncates to the integer quotient. *)
Lemma truediv_small a b :
  0 <= a < 2 ^ 53 -> 0 < b < 2 ^ 53 ->
  exists x, truediv a b = Ok x /\ 0 <= fmant x /\ fexpo x <= 0 /\ to_int x = a / b.
Proof.
  intros Ha Hb. unfold truediv.
  destruct (b =? 0) eqn:Eb; [apply Z.eqb_eq in Eb; lia|].
  destruct (a =? 0) eqn:Ea.
  { apply Z.eqb_eq in Ea. subst a.
    eexists; repeat split; try reflexivity; simpl; lia. }
  apply Z.eqb_neq in Ea.
  assert (Ha0 : 0 < a) by lia.
  rewrite (Z.abs_eq a), (Z.abs_eq b) by lia.
  assert (Hsign : Bool.eqb (a <? 0) (b <? 0) = true).
  { destruct (Z.ltb_spec a 0), (Z.ltb_spec b 0); try lia; reflexivity. }
  rewrite Hsign. clear Hsign.
  unfold round_ratio.
  pose proof (ilog2_ratio_range a b) as Hk.
  pose proof (ilog2_ratio_lower a b Ha0 ltac:(lia)) as Hlow.
  assert (La : Z.log2 a < 53) by (apply Z.log2_lt_pow2; lia).
  assert (Lb : Z.log2 b < 53) by (apply Z.log2_lt_pow2; lia).
  pose proof (Z.log2_nonneg a). pose proof (Z.log2_nonneg b).
  set (k := ilog2_ratio a b) in *.
  set (e := Z.max (k - (prec - 1)) emin).
  assert (He : e = k - 52) by (unfold e, prec, emin; lia).
  assert (He0 : e <= 0) by lia.
  rewrite (pow2_nonpos e He0), !Z.mul_1_r.
  rewrite (pow2_nonneg (- e)) by lia.
  set (P := 2 ^ (- e)).
  assert (HP : 0 < P) by (apply Z.pow_pos_nonneg; lia).
  assert (HP' : P <= 2 ^ 105) by (apply Z.pow_le_mono_r; lia).
  assert (Hscaled : 2 ^ 52 * b <= a * P).
  { unfold P. destruct (Z.le_gt_cases 0 k) as [Hk0|Hk0].
    - rewrite (pow2_nonneg k), (pow2_nonpos (- k)) in Hlow by lia.
      assert (E : 2 ^ 52 = 2 ^ k * 2 ^ (- e)).
      { rewrite <- Z.pow_add_r by lia. f_equal. lia. }
      assert (0 < 2 ^ (- e)) by (apply Z.pow_pos_nonneg; lia).
      nia.
    - rewrite (pow2_nonpos k), (pow2_nonneg (- k)) in Hlow by lia.
      assert (E : 2 ^ (- e) = 2 ^ (- k) * 2 ^ 52).
      { rewrite <- Z.pow_add_r by lia. f_equal. lia. }
      nia. }
  assert (HbP : b < 2 * P).
  { assert (Hlt : 2 ^ 52 * b < 2 ^ 53 * P) by nia.
    change (2 ^ 53) with (2 * 2 ^ 52) in Hlt.
    assert (0 < 2 ^ 52) by reflexivity. nia. }
  pose proof (rne_bounds a b P ltac:(lia) ltac:(lia) HP HbP) as [Hm1 Hm2].
  set (m := rne (a * P) b) in *.
  assert (Hq : 0 <= a / b < 2 ^ 53).
  { split; [apply Z.div_pos; lia|].
    apply Z.div_lt_upper_bound; nia. }
  assert (Hm0 : 0 <= m) by nia.
  assert (Hmax : m < 2 ^ emax).
  { assert (m < 2 ^ 53 * 2 ^ 105) by nia.
    assert (2 ^ 53 * 2 ^ 105 < 2 ^ emax) by reflexivity. lia. }
  destruct (2 ^ emax <=? m) eqn:Ho; [apply Z.leb_le in Ho; lia|].
  eexists. split; [reflexivity|]. cbn [fmant fexpo].
  split; [exact Hm0|]. split; [exact He0|].
  unfold to_int. cbn [fmant fexpo].
  destruct (0 <=? e) eqn:Hz.
  - apply Z.leb_le in Hz. assert (e = 0) by lia.
    rewrite (pow2_nonpos e) by lia.
    assert (P = 1) by (unfold P; replace (- e) with 0 by lia; reflexivity).
    nia.
  - rewrite (pow2_nonneg (- e)) by lia. fold P.
    rewrite Z.quot_div_nonneg by lia.
    symmetry. apply Z.div_unique with (r := m - a / b * P); lia.
Qed.

(** On a non-negative float that is not scaled up, [%] followed by
    [int] is the integer remainder of the truncation. *)
Lemma to_int_fmod_int x w :
  0 <= fmant x -> fexpo x <= 0 -> 0 < w ->
  to_int (fmod_int x w) = to_int x mod w.
Proof.
  destruct x as [m e]. cbn [fmant fexpo]. intros Hm He Hw.
  unfold fmod_int, to_int. cbn [fmant fexpo].
  rewrite (pow2_nonpos e He), Z.mul_1_r.
  pose proof (pow2_pos (- e)) as HP. set (P := pow2 (- e)) in *.
  rewrite Z.rem_mod_nonneg by nia.
  pose proof (Z.mod_pos_bound m (w * P) ltac:(nia)) as Hr.
  destruct (0 <=? m mod (w * P)) eqn:H0; [|apply Z.leb_gt in H0; lia].
  cbn [fmant fexpo]. rewrite Z.min_r by lia.
  destruct (0 <=? e) eqn:Hz.
  - apply Z.leb_le in Hz. assert (e = 0) by lia. subst e.
    change P with 1. rewrite !Z.mul_1_r. reflexivity.
  - rewrite !Z.quot_div_nonneg by lia.
    rewrite (Z.mul_comm w P).
    rewrite Z.rem_mul_r by lia.
    rewrite (Z.mul_comm P), Z.div_add by lia.
    rewrite (Z.div_small (m mod P)) by (apply Z.mod_pos_bound; lia).
    reflexivity.
Qed.

End FloatLemmas.

(** The rounding written out in [round_ratio] is the one of the Standard
    Library's IEEE 754 division, on a sample of quotients: exact ones,
    ones that round down and up, two ties, and ones past [2 ^ 53]. *)
Lemma round_ratio_agrees_with_SFdiv :
  forallb agrees_with_SFdiv
    [(1, 1000); (1500, 1000); (999, 1000); (61000000, 1000000); (59, 60);
     (9007199254740991, 1000); (9007199254740993, 1000);
     (17179869184999999, 1000000); (17592186044416999, 1000);
     (9223372036854775807, 1000); (9223372036854775807, 1000000);
     (9007199254740993, 1); (9007199254740995, 1); (1, 3); (2, 3);
     (123456789012345678901234567890, 7)]%positive = true.
Proof. vm_compute. reflexivity. Qed.

(** Up to [2 ^ 53] microseconds (285 years) the formatter computes what
    the specification describes. *)
Lemma track_length_string_below_2p53 (length : Z) :
  0 <= length < 2 ^ 53 ->
  track_length_string length = Ok (spec_track_length_string length).
Proof.
  intros H. unfold track_length_string, spec_track_length_string.
  destruct (truediv_small length 1000 H ltac:(lia)) as (q & -> & Hq1 & Hq2 & Hq).
  destruct (truediv_small length 1000000 H ltac:(lia)) as (f & -> & _ & _ & Hf).
  cbn [rbind].
  rewrite (to_int_fmod_int q 1000 Hq1 Hq2 ltac:(lia)), Hq, Hf.
  assert (Hs : 0 <= length / 1000000 < 2 ^ 53).
  { split; [apply Z.div_pos; lia|]. apply Z.div_lt_upper_bound; lia. }
  destruct (truediv_small (length / 1000000) 60 Hs ltac:(lia)) as (g & -> & _ & _ & Hg).
  cbn [rbind]. rewrite Hg.
  destruct (negb (length mod 1000 =? 0)); [reflexivity|].
  destruct (negb ((length / 1000) mod 1000 =? 0)); reflexivity.
Qed.

(** C1.  The claim, that for every non-negative [length] the formatter
    returns the string built from the integer decomposition
    [us = length mod 1000], [ms = floor(length/1000) mod 1000],
    [s = floor(length/1000000)], fails at 17179869184999999 microseconds:
    the float [length / 1000000] rounds up to 17179869185.0, so the
    formatter returns 5 seconds where the decomposition gives 4. *)
Theorem track_length_string_rounds_up :
  track_length_string 17179869184999999 = Ok "286331153:05.999999"
  /\ spec_track_length_string 17179869184999999 = "286331153:04.999999".
Proof. split; vm_compute; reflexivity. Qed.

(** C2.  The formatter returns "0:00" for 0, "0:01" for 1000000, "1:01"
    for 61000000, "0:00.000500" for 500 and "0:00.001500" for 1500. *)
Theorem track_length_string_examples :
  track_length_string 0 = Ok "0:00"
  /\ track_length_string 1000000 = Ok "0:01"
  /\ track_length_string 61000000 = Ok "1:01"
  /\ track_length_string 500 = Ok "0:00.000500"
  /\ track_length_string 1500 = Ok "0:00.001500".
Proof. repeat split; vm_compute; reflexivity. Qed.

(** ** The program: properties *)

Section Selection.

Variable bus : Bus.
Variable a : Args.

(** An index at or past the end of a list raises [IndexError]. *)
Lemma py_index_past_end {A : Type} (l : list A) (i : Z) :
  Z.of_nat (List.length l) <= i -> py_index l i = Err IndexError.
Proof.
  intros H. unfold py_index.
  destruct (i <? 0) eqn:Hi; [apply Z.ltb_lt in Hi; lia|].
  destruct (i <? Z.of_nat (List.length l)) eqn:Hn; [apply Z.ltb_lt in Hn; lia|].
  rewrite andb_false_r. reflexivity.
Qed.

(** A negative index counts from the end. *)
Lemma py_index_from_end {A : Type} (l : list A) (i : Z) :
  - Z.of_nat (List.length l) <= i < 0 ->
  exists x, nth_error l (Z.to_nat (Z.of_nat (List.length l) + i)) = Some x
            /\ py_index l i = Ok x.
Proof.
  intros H. unfold py_index.
  destruct (i <? 0) eqn:Hi; [|apply Z.ltb_ge in Hi; lia].
  rewrite (Z.add_comm i).
  set (j := Z.of_nat (List.length l) + i) in *.
  destruct (0 <=? j) eqn:H0; [|apply Z.leb_gt in H0; lia].
  destruct (j <? Z.of_nat (List.length l)) eqn:H1; [|apply Z.ltb_ge in H1; lia].
  cbn [andb].
  destruct (nth_error l (Z.to_nat j)) as [x|] eqn:Hx.
  - exists x. split; reflexivity.
  - apply nth_error_None in Hx. apply Z.ltb_lt in H1. lia.
Qed.

(** The constructor never fails: it sends its three requests and keeps
    an optional interface exactly when its probe was answered. *)
Lemma init_closed_form (s : string) :
  MprisService.__init__ bus s = (init_events s, Ret (handle_of bus s)).
Proof.
  unfold MprisService.__init__, handle_of, init_events,
    MprisService.get_playlists_property, MprisService.get_tracklist_property,
    MprisService.Get.
  cbn [MprisService.name MprisService.playlists MprisService.tracklist].
  destruct (properties_Get bus s MprisService.playlists_interface "PlaylistCount");
    cbn; destruct (properties_Get bus s _ "CanEditTracks"); reflexivity.
Qed.

Lemma select_service_found (s : string) :
  py_index (discovered bus) (service a) = Ok s ->
  select_service bus a
  = ((EListNames :: init_events s ++ banner a (handle_of bus s))%list,
     Ret (handle_of bus s)).
Proof.
  intros H. unfold select_service, get_services, discovered in *.
  unfold bind at 1. cbn [app]. rewrite H. cbn [lift ret bind app].
  rewrite init_closed_form. unfold banner.
  destruct (verbose a); reflexivity.
Qed.

Lemma select_service_not_found :
  py_index (discovered bus) (service a) = Err IndexError ->
  select_service bus a = ([EListNames; EPrint (not_found_message a)], Exit 1).
Proof.
  intros H. unfold select_service, get_services, discovered in *.
  unfold bind at 1. cbn [app]. rewrite H. reflexivity.
Qed.

(** Past the two listing gates the program is the selection followed
    by the command. *)
Lemma main_selected (t : list event) (svc : MprisService.t) :
  commands a = false ->
  String.eqb (command a) "services" = false ->
  select_service bus a = (t, Ret svc) ->
  main bus a
  = ((t ++ fst (run_command bus a svc))%list, snd (run_command bus a svc)).
Proof.
  intros Hc Hs Hsel. unfold main. rewrite Hc, Hs, Hsel.
  unfold bind. destruct (run_command bus a svc). reflexivity.
Qed.

End Selection.

Section Commands.

Variable bus : Bus.
Variable a : Args.
Variable svc : MprisService.t.

Lemma append_assoc (x y z : string) : (x ++ y) ++ z = x ++ (y ++ z).
Proof. induction x as [|c x IH]; simpl; [reflexivity|]. rewrite IH. reflexivity. Qed.

Lemma concat_cons_append (sep p x : string) (l : list string) :
  String.concat sep ((p ++ x) :: l) = p ++ String.concat sep (x :: l).
Proof. destruct l as [|y l]; simpl; [reflexivity|]. apply append_assoc. Qed.

(** The loop of lines 179-180 joins the strings left in the deque to
    the artist it has so far. *)
Lemma join_artists_strings (l : list string) :
  forall acc : string,
    join_artists (VStr acc) (map VStr l) = Ok (VStr (String.concat ", " (acc :: l))).
Proof.
  induction l as [|x l IH]; intros acc; [reflexivity|].
  cbn [map join_artists py_add rbind]. rewrite IH.
  rewrite concat_cons_append, append_assoc.
  reflexivity.
Qed.

Lemma artist_of_field (d : list (string * variant)) (field : option (list string)) :
  dict_get d "xesam:artist" = artist_entry field ->
  artist_of (VDict d) = Ok (VStr (spec_artist field)).
Proof.
  intros H. unfold artist_of, meta_get. cbn [rbind]. rewrite H.
  destruct field as [[|first rest]|]; try reflexivity.
  cbn [artist_entry option_map map truthy py_iter rbind spec_artist].
  apply join_artists_strings.
Qed.

Lemma dict_get_del_same (d : list (string * variant)) (k : string) :
  dict_get (dict_del d k) k = None.
Proof.
  induction d as [|[k' v] d IH]; [reflexivity|].
  unfold dict_del in *. cbn [filter fst].
  destruct (String.eqb k' k) eqn:E; cbn [negb]; [exact IH|].
  cbn [dict_get]. rewrite E. exact IH.
Qed.

Lemma dict_get_del_other (d : list (string * variant)) (k k' : string) :
  k' <> k -> dict_get (dict_del d k) k' = dict_get d k'.
Proof.
  intros Hk. induction d as [|[k0 v] d IH]; [reflexivity|].
  unfold dict_del in *. cbn [filter fst].
  destruct (String.eqb k0 k) eqn:E; cbn [negb dict_get].
  - apply String.eqb_eq in E. subst k0.
    destruct (String.eqb k k') eqn:E'; [apply String.eqb_eq in E'; congruence|].
    exact IH.
  - destruct (String.eqb k0 k'); [reflexivity|exact IH].
Qed.

Lemma run_command_open :
  command a = "open" -> run_command bus a svc = open_command bus a svc.
Proof. intros H. unfold run_command. rewrite H. reflexivity. Qed.

Lemma run_command_status :
  command a = "status" -> run_command bus a svc = status_command bus a svc.
Proof. intros H. unfold run_command. rewrite H. reflexivity. Qed.

End Commands.

(** C3, as amended.  When the list-commands flag is not set, for every
    command other than "services" and every service index at or past the
    number of discovered services, the program prints the error naming
    the index and exits with status 1; it lists the bus names and sends
    nothing to any player. *)
Theorem main_service_not_found (bus : Bus) (a : Args) :
  commands a = false ->
  command a <> "services" ->
  Z.of_nat (List.length (discovered bus)) <= service a ->
  main bus a = ([EListNames; EPrint (not_found_message a)], Exit 1)
  /\ exit_status (snd (main bus a)) = 1
  /\ existsb player_event (fst (main bus a)) = false.
Proof.
  intros Hc Hs Hi.
  assert (E : main bus a = ([EListNames; EPrint (not_found_message a)], Exit 1)).
  { unfold main. rewrite Hc.
    apply String.eqb_neq in Hs. rewrite Hs.
    rewrite select_service_not_found by (apply py_index_past_end; exact Hi).
    reflexivity. }
  rewrite E. repeat split.
Qed.

Lemma main_service_not_found_witness :
  main Sample.bus (Sample.args_of "play" [] 2 false)
  = ([EListNames; EPrint "MPRIS2 service no. 2 not found."], Exit 1)
  /\ exit_status (snd (main Sample.bus (Sample.args_of "play" [] 2 false))) = 1
  /\ existsb player_event (fst (main Sample.bus (Sample.args_of "play" [] 2 false))) = false.
Proof.
  apply (main_service_not_found Sample.bus (Sample.args_of "play" [] 2 false)).
  - reflexivity.
  - discriminate.
  - simpl. lia.
Defined.

(** C3 as stated fails: with the list-commands flag set the program
    prints the catalogue and exits with status 0, whatever the command
    and the service index. *)
Lemma service_index_ignored_when_listing_commands :
  ~ (forall (bus : Bus) (a : Args),
        command a <> "services" ->
        Z.of_nat (List.length (discovered bus)) <= service a ->
        exit_status (snd (main bus a)) = 1).
Proof.
  intros H.
  specialize (H Sample.bus (Sample.args_of "play" [] 2 true)).
  assert (E : exit_status (snd (main Sample.bus (Sample.args_of "play" [] 2 true))) = 0)
    by reflexivity.
  rewrite H in E; [discriminate E | discriminate | simpl; lia].
Qed.

(** C4.  For the open command with a URI argument, when the OpenUri call
    fails the program has printed the announcement and sent the call,
    prints one more line and exits with status 1: the dedicated message
    that the service does not support opening URIs when the error name
    ends in UnknownMethod, and otherwise "Unexpected error:" followed by
    the name and the message of the error. *)
Theorem open_reports_failure
    (bus : Bus) (a : Args) (svc : MprisService.t)
    (uri : string) (rest : list string) (e : dbus_error) :
  command a = "open" ->
  args a = uri :: rest ->
  player_call bus (MprisService.name svc) "OpenUri" [uri] = Fault e ->
  run_command bus a svc
  = ([EPrint ("opening " ++ uri);
      ECall (MprisService.name svc) "OpenUri" [uri];
      EPrint (if endswith (dbus_name e) "UnknownMethod"
              then unsupported_message svc
              else unexpected_message e)],
     Exit 1).
Proof.
  intros Hc Ha He. rewrite run_command_open by exact Hc.
  unfold open_command, MprisService.player_method. rewrite Ha.
  cbn [py_index List.length]. cbn [lift ret bind app nth_error Z.to_nat].
  change (py_index (uri :: rest) 0) with (Ok uri).
  cbn [lift ret bind app print]. rewrite He.
  cbn [try_except open_handler].
  destruct (endswith (dbus_name e) "UnknownMethod"); reflexivity.
Qed.

Lemma open_reports_failure_witness :
  run_command Sample.bus (Sample.args_of "open" ["file:///a.ogg"] 1 false)
    (handle_of Sample.bus Sample.mpv)
  = ([EPrint "opening file:///a.ogg";
      ECall Sample.mpv "OpenUri" ["file:///a.ogg"];
      EPrint "Error: Service org.mpris.MediaPlayer2.mpv does not support opening URIs via MPRIS2."],
     Exit 1).
Proof.
  apply (open_reports_failure Sample.bus
           (Sample.args_of "open" ["file:///a.ogg"] 1 false)
           (handle_of Sample.bus Sample.mpv)
           "file:///a.ogg" [] Sample.unknown_method);
    reflexivity.
Defined.

(** C5, as amended.  The two probes of the constructor swallow every
    failure of the remote call, of whatever error class: construction
    always succeeds, the handle of an optional interface is absent
    exactly when its probe failed, and nothing is printed. *)
Theorem init_swallows_every_probe_failure (bus : Bus) (s : string) :
  MprisService.__init__ bus s
  = ([EGetObject s;
      EGet s MprisService.playlists_interface "PlaylistCount";
      EGet s MprisService.tracklist_interface "CanEditTracks"],
     Ret (MprisService.mk s
            (answered (properties_Get bus s MprisService.playlists_interface "PlaylistCount"))
            (answered (properties_Get bus s MprisService.tracklist_interface "CanEditTracks"))))
  /\ prints (fst (MprisService.__init__ bus s)) = [].
Proof.
  rewrite init_closed_form. split; reflexivity.
Qed.

(** C5 as stated fails: a probe that fails with an error outside the
    not-found class (here NoReply) is swallowed as well, the constructor
    does not raise it. *)
Lemma probe_swallows_unrelated_error :
  ~ (forall (bus : Bus) (s : string) (e : dbus_error),
        properties_Get bus s MprisService.playlists_interface "PlaylistCount" = Fault e ->
        spec_not_found_class e = false ->
        snd (MprisService.__init__ bus s) = Raise (DBusException e)).
Proof.
  intros H.
  specialize (H Sample.bus Sample.mpv Sample.no_reply eq_refl eq_refl).
  rewrite init_closed_form in H. discriminate H.
Qed.

(** C6.  In the line of the status command an artist field that is a
    list of strings is displayed as its elements joined with ", ", and
    an empty or absent artist field as "[Unknown]". *)
Theorem artist_display
    (bus : Bus) (status pos : variant) (d : list (string * variant))
    (field : option (list string)) :
  dict_get d "xesam:artist" = artist_entry field ->
  artist_of (VDict d) = Ok (VStr (spec_artist field))
  /\ status_line bus status (VDict d) pos
     = rbind (len_str (VDict d) pos) (fun l =>
       rbind (title_of (VDict d)) (fun title =>
       Ok (py_str bus (Some status) ++ ": " ++ dquote ++ py_str bus title ++ dquote
           ++ " by " ++ spec_artist field ++ " " ++ l))).
Proof.
  intros H. pose proof (artist_of_field d field H) as E.
  split; [exact E|].
  unfold status_line. rewrite E.
  destruct (len_str (VDict d) pos); [|reflexivity].
  destruct (title_of (VDict d)); reflexivity.
Qed.

Lemma artist_display_witness :
  artist_of (VDict Sample.metadata) = Ok (VStr "A, B, C")
  /\ status_line Sample.bus (VStr "Playing") (VDict Sample.metadata) (VInt 1500)
     = Ok ("Playing: " ++ dquote ++ "Song" ++ dquote ++ " by A, B, C ").
Proof.
  apply (artist_display Sample.bus (VStr "Playing") (VInt 1500) Sample.metadata
           (Some ["A"; "B"; "C"])).
  reflexivity.
Defined.

(** The status command alone: when the PlaybackStatus read is a string
    other than "Playing" and "Paused", the command reads nothing else and
    prints exactly that string. *)
Lemma status_other_command
    (bus : Bus) (a : Args) (svc : MprisService.t) (s : string) :
  command a = "status" ->
  properties_Get bus (MprisService.name svc) MprisService.player_interface "PlaybackStatus"
  = Reply (VStr s) ->
  s <> "Playing" ->
  s <> "Paused" ->
  run_command bus a svc
  = ([EGet (MprisService.name svc) MprisService.player_interface "PlaybackStatus";
      EPrint s],
     Ret tt).
Proof.
  intros Hc Hs H1 H2. rewrite run_command_status by exact Hc.
  unfold status_command, MprisService.get_player_property, MprisService.Get.
  rewrite Hs. unfold bind, playing_or_paused.
  apply String.eqb_neq in H1, H2. rewrite H1, H2. reflexivity.
Qed.

Lemma prints_app (t t' : list event) :
  prints (t ++ t')%list = (prints t ++ prints t')%list.
Proof. unfold prints. apply flat_map_app. Qed.

(** C7, as amended.  For a run that reaches the status command (the
    list-commands flag is not set and the service index is in range),
    when the PlaybackStatus read is a string other than "Playing" and
    "Paused" the program reads nothing else of the player and prints
    that string as its last line; without the verbose flag it prints
    exactly that string and nothing else, and with the verbose flag the
    three lines of the selection about the selected service come before
    it. *)
Theorem status_other_prints_raw
    (bus : Bus) (a : Args) (s st : string) :
  commands a = false ->
  command a = "status" ->
  selected bus a = Some s ->
  properties_Get bus s MprisService.player_interface "PlaybackStatus" = Reply (VStr st) ->
  st <> "Playing" ->
  st <> "Paused" ->
  main bus a
  = ((EListNames :: init_events s ++ banner a (handle_of bus s)
        ++ [EGet s MprisService.player_interface "PlaybackStatus"; EPrint st])%list,
     Ret tt)
  /\ prints (fst (main bus a)) = (prints (banner a (handle_of bus s)) ++ [st])%list
  /\ (verbose a = false -> prints (fst (main bus a)) = [st]).
Proof.
  intros Hc Hcmd Hsel Hst H1 H2.
  unfold selected in Hsel.
  destruct (py_index (discovered bus) (service a)) as [x|] eqn:E; [|discriminate].
  injection Hsel as ->.
  assert (Hs : String.eqb (command a) "services" = false) by (rewrite Hcmd; reflexivity).
  assert (Hm : main bus a
               = ((EListNames :: init_events s ++ banner a (handle_of bus s)
                     ++ [EGet s MprisService.player_interface "PlaybackStatus";
                         EPrint st])%list,
                  Ret tt)).
  { rewrite (main_selected bus a _ _ Hc Hs (select_service_found bus a s E)).
    rewrite (status_other_command bus a (handle_of bus s) st Hcmd Hst H1 H2).
    cbn [fst snd handle_of MprisService.name app].
    rewrite <- app_assoc. reflexivity. }
  assert (Hp : prints (fst (main bus a))
               = (prints (banner a (handle_of bus s)) ++ [st])%list).
  { rewrite Hm. cbn [fst].
    change (EListNames :: init_events s ++ ?t)%list
      with ((EListNames :: init_events s) ++ t)%list.
    rewrite !prints_app. reflexivity. }
  split; [exact Hm|]. split; [exact Hp|].
  intros Hv. rewrite Hp. unfold banner. rewrite Hv. reflexivity.
Qed.

Lemma status_other_prints_raw_witness :
  main Sample.bus (Sample.args_of "status" [] 1 false)
  = ((EListNames :: init_events Sample.mpv
        ++ banner (Sample.args_of "status" [] 1 false) (handle_of Sample.bus Sample.mpv)
        ++ [EGet Sample.mpv MprisService.player_interface "PlaybackStatus";
            EPrint "Stopped"])%list,
     Ret tt)
  /\ prints (fst (main Sample.bus (Sample.args_of "status" [] 1 false)))
     = (prints (banner (Sample.args_of "status" [] 1 false)
                  (handle_of Sample.bus Sample.mpv)) ++ ["Stopped"])%list
  /\ (verbose (Sample.args_of "status" [] 1 false) = false ->
      prints (fst (main Sample.bus (Sample.args_of "status" [] 1 false))) = ["Stopped"]).
Proof.
  apply (status_other_prints_raw Sample.bus (Sample.args_of "status" [] 1 false)
           Sample.mpv "Stopped");
    [reflexivity | reflexivity | reflexivity | reflexivity | discriminate | discriminate].
Defined.

(** C7 as stated fails: with the verbose flag the program prints the
    three lines about the selected service before the status of a
    stopped player, four lines in all. *)
Lemma status_other_not_alone_when_verbose :
  ~ (forall (bus : Bus) (a : Args) (s st : string),
        commands a = false ->
        command a = "status" ->
        selected bus a = Some s ->
        properties_Get bus s MprisService.player_interface "PlaybackStatus"
        = Reply (VStr st) ->
        st <> "Playing" ->
        st <> "Paused" ->
        prints (fst (main bus a)) = [st]).
Proof.
  intros H.
  specialize (H Sample.bus verbose_status Sample.mpv "Stopped"
                eq_refl eq_refl eq_refl eq_refl).
  assert (E : prints (fst (main Sample.bus verbose_status))
              = ["selected service org.mpris.MediaPlayer2.mpv";
                 "  playlists support:" ++ tab ++ "False";
                 "  tracklist support:" ++ tab ++ "True";
                 "Stopped"])
    by reflexivity.
  rewrite H in E; [discriminate E | discriminate | discriminate].
Qed.

(** C8.  In the status command a metadata entry mpris:length equal to 0
    is treated as an absent one: the duration string is empty in both
    cases, and the line printed is the one printed for the same metadata
    without the entry. *)
Theorem zero_length_as_absent
    (bus : Bus) (status pos : variant) (d : list (string * variant)) :
  dict_get d "mpris:length" = Some (VInt 0) ->
  len_str (VDict d) pos = Ok ""
  /\ len_str (VDict (dict_del d "mpris:length")) pos = Ok ""
  /\ status_line bus status (VDict d) pos
     = status_line bus status (VDict (dict_del d "mpris:length")) pos.
Proof.
  intros H.
  assert (E1 : len_str (VDict d) pos = Ok "").
  { unfold len_str, meta_get. cbn [rbind]. rewrite H. reflexivity. }
  assert (E2 : len_str (VDict (dict_del d "mpris:length")) pos = Ok "").
  { unfold len_str, meta_get. cbn [rbind]. rewrite dict_get_del_same. reflexivity. }
  repeat split; [exact E1 | exact E2 |].
  unfold status_line. rewrite E1, E2.
  unfold title_of, artist_of, meta_get. cbn [rbind].
  rewrite !dict_get_del_other by discriminate.
  reflexivity.
Qed.

Lemma zero_length_as_absent_witness :
  len_str (VDict Sample.metadata) (VInt 1500) = Ok ""
  /\ len_str (VDict (dict_del Sample.metadata "mpris:length")) (VInt 1500) = Ok ""
  /\ status_line Sample.bus (VStr "Playing") (VDict Sample.metadata) (VInt 1500)
     = status_line Sample.bus (VStr "Playing")
         (VDict (dict_del Sample.metadata "mpris:length")) (VInt 1500).
Proof.
  apply (zero_length_as_absent Sample.bus (VStr "Playing") (VInt 1500) Sample.metadata).
  reflexivity.
Defined.

(** C9.  For a negative service index [N] with [- n <= N < 0], [n] the
    number of discovered services, the selection reports no error: it
    takes the service at position [n + N], builds its object and returns
    it to the command. *)
Theorem negative_index_selects_from_end (bus : Bus) (a : Args) :
  - Z.of_nat (List.length (discovered bus)) <= service a < 0 ->
  exists s : string,
    nth_error (discovered bus)
      (Z.to_nat (Z.of_nat (List.length (discovered bus)) + service a)) = Some s
    /\ select_service bus a
       = ((EListNames :: init_events s ++ banner a (handle_of bus s))%list,
          Ret (handle_of bus s))
    /\ ~ In (EPrint (not_found_message a)) (fst (select_service bus a)).
Proof.
  intros H.
  destruct (py_index_from_end (discovered bus) (service a) H) as (s & Hnth & Hidx).
  exists s. split; [exact Hnth|].
  pose proof (select_service_found bus a s Hidx) as E.
  split; [exact E|].
  rewrite E. unfold banner, init_events, not_found_message. cbn [fst].
  destruct (verbose a); cbn; intros Hin;
    repeat (destruct Hin as [Hin|Hin]; [discriminate Hin|]); exact Hin.
Qed.

Lemma negative_index_selects_from_end_witness :
  exists s : string,
    nth_error (discovered Sample.bus)
      (Z.to_nat (Z.of_nat (List.length (discovered Sample.bus)) + -1)) = Some s
    /\ select_service Sample.bus (Sample.args_of "play" [] (-1) false)
       = ((EListNames :: init_events s
             ++ banner (Sample.args_of "play" [] (-1) false) (handle_of Sample.bus s))%list,
          Ret (handle_of Sample.bus s))
    /\ ~ In (EPrint (not_found_message (Sample.args_of "play" [] (-1) false)))
            (fst (select_service Sample.bus (Sample.args_of "play" [] (-1) false))).
Proof.
  apply (negative_index_selects_from_end Sample.bus (Sample.args_of "play" [] (-1) false)).
  simpl. lia.
Defined.

(** C10.  For the open command with no argument, the access to the
    first argument raises [IndexError] before anything is printed or
    sent; the handler of the command does not catch it, so the command
    ends with the exception and neither message of the open command is
    printed. *)
Theorem open_without_argument (bus : Bus) (a : Args) (svc : MprisService.t) :
  command a = "open" ->
  args a = [] ->
  run_command bus a svc = ([], Raise IndexError)
  /\ open_handler svc IndexError = None.
Proof.
  intros Hc Ha. rewrite run_command_open by exact Hc.
  unfold open_command. rewrite Ha. split; reflexivity.
Qed.

Lemma open_without_argument_witness :
  run_command Sample.bus (Sample.args_of "open" [] 0 false) (handle_of Sample.bus Sample.vlc)
  = ([], Raise IndexError)
  /\ open_handler (handle_of Sample.bus Sample.vlc) IndexError = None.
Proof.
  apply (open_without_argument Sample.bus (Sample.args_of "open" [] 0 false)
           (handle_of Sample.bus Sample.vlc));
    reflexivity.
Defined.

(** ** Further properties of the duration formatter *)

Section FloatRange.

Lemma rne_range n d : 0 <= n -> 0 < d -> n / d <= rne n d <= n / d + 1.
Proof.
  intros Hn Hd. unfold rne.
  destruct (2 * (n mod d) <? d); [lia|].
  destruct (d <? 2 * (n mod d)); [lia|].
  destruct (Z.even (n / d)); lia.
Qed.

(** [n / d < 2 ^ (ilog2_ratio n d + 1)], the powers moved to the side
    where they are integers. *)
Lemma ilog2_ratio_upper n d :
  0 < n -> 0 < d ->
  n * pow2 (- (ilog2_ratio n d + 1)) < d * pow2 (ilog2_ratio n d + 1).
Proof.
  intros Hn Hd. unfold ilog2_ratio.
  destruct (_ <=? _) eqn:H.
  - clear H.
    pose proof (Z.log2_spec n Hn) as [_ Ln].
    pose proof (Z.log2_spec d Hd) as [Ld _].
    pose proof (Z.log2_nonneg n) as Nn. pose proof (Z.log2_nonneg d) as Nd.
    set (la := Z.log2 n) in *. set (lb := Z.log2 d) in *.
    destruct (Z.le_gt_cases 0 (la - lb + 1)) as [Hk|Hk].
    + rewrite (pow2_nonneg (la - lb + 1)) by lia.
      rewrite (pow2_nonpos (- (la - lb + 1))) by lia.
      assert (E : 2 ^ Z.succ la = 2 ^ lb * 2 ^ (la - lb + 1)).
      { rewrite <- Z.pow_add_r by lia. f_equal. lia. }
      assert (0 < 2 ^ (la - lb + 1)) by (apply Z.pow_pos_nonneg; lia).
      nia.
    + rewrite (pow2_nonpos (la - lb + 1)) by lia.
      rewrite (pow2_nonneg (- (la - lb + 1))) by lia.
      assert (E : 2 ^ lb = 2 ^ Z.succ la * 2 ^ (- (la - lb + 1))).
      { rewrite <- Z.pow_add_r by lia. f_equal. lia. }
      assert (0 < 2 ^ (- (la - lb + 1))) by (apply Z.pow_pos_nonneg; lia).
      nia.
  - apply Z.leb_gt in H.
    replace (Z.log2 n - Z.log2 d - 1 + 1) with (Z.log2 n - Z.log2 d) by lia.
    exact H.
Qed.

(** The quotient of an integer below [2 ^ 1022] rounds to a finite
    float, whose truncation is at most twice the integer. *)
Lemma round_ratio_finite n d :
  0 < n < 2 ^ 1022 -> 0 < d ->
  exists x, round_ratio n d = Some x /\ 0 <= fmant x /\ 0 <= to_int x <= 2 * n.
Proof.
  intros Hn Hd. unfold round_ratio.
  pose proof (ilog2_ratio_lower n d ltac:(lia) Hd) as Hlow.
  pose proof (ilog2_ratio_upper n d ltac:(lia) Hd) as Hup.
  set (k := ilog2_ratio n d) in *.
  set (e := Z.max (k - (prec - 1)) emin).
  assert (He : k - 52 <= e /\ (e = k - 52 \/ e = -1074)) by (unfold e, prec, emin; lia).
  destruct (Z.le_gt_cases 0 e) as [He0|He0].
  - (* the float is an integer *)
    assert (Hk : e = k - 52) by lia.
    rewrite (pow2_nonpos (- e)) by lia. rewrite Z.mul_1_r.
    rewrite (pow2_nonneg e He0).
    rewrite (pow2_nonneg k), (pow2_nonpos (- k)), Z.mul_1_r in Hlow by lia.
    assert (HP : 0 < 2 ^ e) by (apply Z.pow_pos_nonneg; lia).
    assert (HPk : 2 ^ e <= 2 ^ k) by (apply Z.pow_le_mono_r; lia).
    set (P := 2 ^ e) in *.
    pose proof (rne_range n (d * P) ltac:(lia) ltac:(nia)) as Hm.
    pose proof (Z.mul_div_le n (d * P) ltac:(nia)) as Hq.
    pose proof (Z.div_pos n (d * P) ltac:(lia) ltac:(nia)) as Hq0.
    set (m := rne n (d * P)) in *. set (q := n / (d * P)) in *.
    assert (HqP : q * P <= n).
    { assert (q * P <= q * (d * P)) by nia. fold q in Hq. lia. }
    assert (HPn : P <= n) by nia.
    assert (HmP : m * P <= 2 * n) by nia.
    assert (2 * n < 2 ^ emax).
    { assert (2 * 2 ^ 1022 < 2 ^ emax) by reflexivity. lia. }
    destruct (2 ^ emax <=? m * P) eqn:Ho; [apply Z.leb_le in Ho; lia|].
    eexists. split; [reflexivity|]. cbn [fmant fexpo].
    split; [lia|].
    unfold to_int. cbn [fmant fexpo].
    destruct (0 <=? e) eqn:Hz; [|apply Z.leb_gt in Hz; lia].
    rewrite (pow2_nonneg e He0). fold P. nia.
  - (* the float has a fractional part *)
    rewrite (pow2_nonpos e) by lia. rewrite !Z.mul_1_r.
    rewrite (pow2_nonneg (- e)) by lia.
    assert (HP : 2 <= 2 ^ (- e)).
    { change 2 with (2 ^ 1) at 1. apply Z.pow_le_mono_r; lia. }
    assert (Hscaled : n * 2 ^ (- e) < 2 ^ 53 * d).
    { destruct (Z.le_gt_cases 0 (k + 1)) as [Hk1|Hk1].
      - rewrite (pow2_nonneg (k + 1)), (pow2_nonpos (- (k + 1))), Z.mul_1_r in Hup by lia.
        assert (E : 2 ^ (k + 1) * 2 ^ (- e) <= 2 ^ 53).
        { rewrite <- Z.pow_add_r by lia. apply Z.pow_le_mono_r; lia. }
        nia.
      - rewrite (pow2_nonpos (k + 1)), (pow2_nonneg (- (k + 1))), Z.mul_1_r in Hup by lia.
        destruct (Z.le_gt_cases (- e) (- (k + 1))) as [Hj|Hj].
        + assert (2 ^ (- e) <= 2 ^ (- (k + 1))) by (apply Z.pow_le_mono_r; lia).
          assert (0 < 2 ^ 53) by reflexivity. nia.
        + assert (E : 2 ^ (- e) = 2 ^ (- (k + 1)) * 2 ^ (- e + (k + 1))).
          { rewrite <- Z.pow_add_r by lia. f_equal. lia. }
          assert (2 ^ (- e + (k + 1)) <= 2 ^ 53) by (apply Z.pow_le_mono_r; lia).
          assert (0 < 2 ^ (- e + (k + 1))) by (apply Z.pow_pos_nonneg; lia).
          nia. }
    set (P := 2 ^ (- e)) in *.
    pose proof (rne_range (n * P) d ltac:(nia) Hd) as Hm.
    assert (Hq : n * P / d < 2 ^ 53) by (apply Z.div_lt_upper_bound; lia).
    assert (Hq' : n * P / d <= n * P).
    { apply Z.div_le_upper_bound; nia. }
    pose proof (Z.div_pos (n * P) d ltac:(nia) Hd) as Hq0.
    set (m := rne (n * P) d) in *.
    assert (m < 2 ^ emax).
    { assert (2 ^ 53 + 1 < 2 ^ emax) by reflexivity. lia. }
    destruct (2 ^ emax <=? m) eqn:Ho; [apply Z.leb_le in Ho; lia|].
    eexists. split; [reflexivity|]. cbn [fmant fexpo].
    split; [lia|].
    unfold to_int. cbn [fmant fexpo].
    destruct (0 <=? e) eqn:Hz; [apply Z.leb_le in Hz; lia|].
    rewrite (pow2_nonneg (- e)) by lia. fold P.
    rewrite Z.quot_div_nonneg by lia.
    split; [apply Z.div_pos; lia|].
    assert (m / P < n + 1); [|lia].
    apply Z.div_lt_upper_bound; [lia|]. nia.
Qed.

Lemma to_int_fopp x : to_int (fopp x) = - to_int x.
Proof.
  unfold to_int, fopp. cbn [fmant fexpo].
  destruct (0 <=? fexpo x); [lia|].
  apply Z.quot_opp_l. pose proof (pow2_pos (- fexpo x)). lia.
Qed.

(** The true division of an integer below [2 ^ 1022] in absolute value
    does not overflow. *)
Lemma truediv_finite a b :
  Z.abs a < 2 ^ 1022 -> b <> 0 ->
  exists x, truediv a b = Ok x /\ Z.abs (to_int x) <= 2 * Z.abs a.
Proof.
  intros Ha Hb. unfold truediv.
  destruct (b =? 0) eqn:Eb; [apply Z.eqb_eq in Eb; contradiction|].
  destruct (a =? 0) eqn:Ea.
  { eexists. split; [reflexivity|]. change (to_int (mkfloat 0 0)) with 0. lia. }
  apply Z.eqb_neq in Ea.
  destruct (round_ratio_finite (Z.abs a) (Z.abs b) ltac:(lia) ltac:(lia))
    as (x & -> & _ & Hx).
  destruct (Bool.eqb (a <? 0) (b <? 0)); eexists; (split; [reflexivity|]).
  - lia.
  - rewrite to_int_fopp. lia.
Qed.

Lemma round_ratio_overflow n d :
  0 < n -> 0 < d -> 1024 <= ilog2_ratio n d -> round_ratio n d = None.
Proof.
  intros Hn Hd Hk. unfold round_ratio.
  pose proof (ilog2_ratio_lower n d Hn Hd) as Hlow.
  set (k := ilog2_ratio n d) in *.
  set (e := Z.max (k - (prec - 1)) emin).
  assert (He : e = k - 52) by (unfold e, prec, emin; lia).
  rewrite (pow2_nonpos (- e)) by lia. rewrite Z.mul_1_r.
  rewrite (pow2_nonneg e) by lia.
  rewrite (pow2_nonneg k), (pow2_nonpos (- k)), Z.mul_1_r in Hlow by lia.
  assert (E : 2 ^ k = 2 ^ 52 * 2 ^ e).
  { rewrite <- Z.pow_add_r by lia. f_equal. lia. }
  assert (HP : 0 < 2 ^ e) by (apply Z.pow_pos_nonneg; lia).
  assert (Hmax : 2 ^ emax <= 2 ^ k) by (apply Z.pow_le_mono_r; unfold emax; lia).
  set (P := 2 ^ e) in *.
  pose proof (rne_range n (d * P) ltac:(lia) ltac:(nia)) as Hm.
  assert (Hq : 2 ^ 52 <= n / (d * P)).
  { apply Z.div_le_lower_bound; [nia|]. nia. }
  set (m := rne n (d * P)) in *.
  assert (2 ^ emax <= m * P) by nia.
  destruct (2 ^ emax <=? m * P) eqn:Ho; [reflexivity|apply Z.leb_gt in Ho; lia].
Qed.

Lemma truediv_overflow a b :
  2 ^ 1034 <= Z.abs a -> 0 < b <= 1000 -> truediv a b = Err OverflowError.
Proof.
  intros Ha Hb. unfold truediv.
  destruct (b =? 0) eqn:Eb; [apply Z.eqb_eq in Eb; lia|].
  destruct (a =? 0) eqn:Ea.
  { apply Z.eqb_eq in Ea. subst a. cbn in Ha. assert (0 < 2 ^ 1034) by reflexivity. lia. }
  rewrite round_ratio_overflow; [reflexivity| | |].
  - assert (0 < 2 ^ 1034) by reflexivity. lia.
  - lia.
  - pose proof (ilog2_ratio_range (Z.abs a) (Z.abs b)) as Hr.
    assert (1034 <= Z.log2 (Z.abs a)) by (apply Z.log2_le_pow2; [assert (0 < 2 ^ 1034) by reflexivity|]; lia).
    assert (Z.log2 (Z.abs b) < 10) by (apply Z.log2_lt_pow2; lia).
    lia.
Qed.

Lemma spec_is_clock (length : Z) :
  spec_track_length_string length = clock_string length.
Proof.
  unfold spec_track_length_string, clock_string.
  rewrite Z.div_div by lia. change (1000000 * 60) with 60000000.
  replace (length / 1000000 - length / 60000000 * 60) with ((length / 1000000) mod 60).
  - reflexivity.
  - rewrite Z.mod_eq by lia. rewrite Z.div_div by lia.
    change (1000000 * 60) with 60000000. lia.
Qed.

End FloatRange.

(** X1.  Up to [2 ^ 53] microseconds the formatter prints the minutes
    [length / 60000000], the seconds of the minute (0..59, two digits)
    and, when they are not zero, the milliseconds and microseconds of the
    second (0..999, three digits each). *)
Theorem track_length_string_clock (length : Z) :
  0 <= length < 2 ^ 53 ->
  track_length_string length = Ok (clock_string length).
Proof.
  intros H. rewrite track_length_string_below_2p53 by exact H.
  rewrite spec_is_clock. reflexivity.
Qed.

Lemma track_length_string_clock_witness :
  track_length_string 3723004005 = Ok "62:03.004005".
Proof. apply (track_length_string_clock 3723004005). simpl. lia. Defined.

(** X2.  The formatter returns a string, and raises nothing, for every
    integer below [2 ^ 1021] in absolute value, so for every 64-bit
    position or length a player can send. *)
Theorem track_length_string_total (length : Z) :
  Z.abs length < 2 ^ 1021 ->
  exists s : string, track_length_string length = Ok s.
Proof.
  intros H. unfold track_length_string.
  assert (H' : Z.abs length < 2 ^ 1022).
  { assert (2 ^ 1021 < 2 ^ 1022) by reflexivity. lia. }
  destruct (truediv_finite length 1000 H' ltac:(lia)) as (q & -> & _).
  destruct (truediv_finite length 1000000 H' ltac:(lia)) as (f & -> & Hf).
  cbn [rbind].
  assert (Hs : Z.abs (to_int f) < 2 ^ 1022).
  { change (2 ^ 1022) with (2 * 2 ^ 1021). lia. }
  destruct (truediv_finite (to_int f) 60 Hs ltac:(lia)) as (g & -> & _).
  cbn [rbind].
  destruct (negb (length mod 1000 =? 0)); [eexists; reflexivity|].
  destruct (negb (_ =? 0)); eexists; reflexivity.
Qed.

Lemma track_length_string_total_witness :
  exists s : string, track_length_string (-9223372036854775808) = Ok s.
Proof.
  apply (track_length_string_total (-9223372036854775808)).
  vm_compute. reflexivity.
Defined.

(** X3.  From [2 ^ 1034] on in absolute value the first true division
    overflows the floats and the formatter raises [OverflowError]. *)
Theorem track_length_string_overflow (length : Z) :
  2 ^ 1034 <= Z.abs length ->
  track_length_string length = Err OverflowError.
Proof.
  intros H. unfold track_length_string.
  rewrite (truediv_overflow length 1000 H ltac:(lia)). reflexivity.
Qed.

Lemma track_length_string_overflow_witness :
  track_length_string (2 ^ 1034) = Err OverflowError.
Proof.
  apply (track_length_string_overflow (2 ^ 1034)).
  vm_compute. discriminate.
Defined.

(** ** Further properties of the listing and the selection *)

Section Indexing.

Context {A : Type}.
Variable l : list A.

Lemma py_index_nat (j : nat) (x : A) :
  nth_error l j = Some x -> py_index l (Z.of_nat j) = Ok x.
Proof.
  intros H. unfold py_index.
  assert (Hj : (j < List.length l)%nat) by (apply nth_error_Some; congruence).
  destruct (Z.of_nat j <? 0) eqn:E; [apply Z.ltb_lt in E; lia|].
  destruct (0 <=? Z.of_nat j) eqn:E0; [|apply Z.leb_gt in E0; lia].
  destruct (Z.of_nat j <? Z.of_nat (List.length l)) eqn:E1; [|apply Z.ltb_ge in E1; lia].
  cbn [andb]. rewrite Nat2Z.id, H. reflexivity.
Qed.

Lemma py_index_before_start (i : Z) :
  i < - Z.of_nat (List.length l) -> py_index l i = Err IndexError.
Proof.
  intros H. unfold py_index.
  destruct (i <? 0) eqn:E; [|apply Z.ltb_ge in E; lia].
  destruct (0 <=? i + Z.of_nat (List.length l)) eqn:E0; [apply Z.leb_le in E0; lia|].
  reflexivity.
Qed.

Lemma py_index_in_range (i : Z) :
  0 <= i < Z.of_nat (List.length l) ->
  exists x, nth_error l (Z.to_nat i) = Some x /\ py_index l i = Ok x.
Proof.
  intros H.
  destruct (nth_error l (Z.to_nat i)) as [x|] eqn:Hx.
  - exists x. split; [reflexivity|].
    rewrite <- (Z2Nat.id i) by lia. apply py_index_nat. exact Hx.
  - apply nth_error_None in Hx. lia.
Qed.

Lemma py_index_Ok_In (i : Z) (x : A) : py_index l i = Ok x -> In x l.
Proof.
  unfold py_index. destruct (_ && _); [|discriminate].
  destruct (nth_error l _) eqn:H; [|discriminate].
  intros E. injection E as <-. eapply nth_error_In. exact H.
Qed.

Lemma py_index_Err (i : Z) (e : exn) : py_index l i = Err e -> e = IndexError.
Proof.
  unfold py_index. destruct (_ && _).
  - destruct (nth_error l _); [discriminate|]. intros E. injection E as <-. reflexivity.
  - intros E. injection E as <-. reflexivity.
Qed.

End Indexing.

Lemma list_services_from_lines (l : list string) :
  forall i : Z,
  exists t : list event,
    list_services_from i l = (t, Ret tt)
    /\ List.length t = List.length l
    /\ existsb player_event t = false
    /\ forall (j : nat) (s : string),
         nth_error l j = Some s ->
         nth_error t j = Some (EPrint ("  " ++ fmt_d (i + Z.of_nat j) ++ ": " ++ s)).
Proof.
  induction l as [|x l' IH]; intros i.
  - exists []. repeat split. intros [|j] s H; discriminate H.
  - destruct (IH (i + 1)) as (t & E & Hlen & Hpl & Hnth).
    exists (EPrint ("  " ++ fmt_d i ++ ": " ++ x) :: t).
    cbn [list_services_from]. rewrite E. unfold bind, print. cbn [app].
    split; [reflexivity|]. split; [cbn [List.length]; lia|].
    split; [exact Hpl|].
    intros [|j] s H.
    + cbn [nth_error] in *. injection H as <-.
      rewrite Z.add_0_r. reflexivity.
    + cbn [nth_error] in *. rewrite (Hnth j s H).
      replace (i + Z.of_nat (S j)) with (i + 1 + Z.of_nat j) by lia.
      reflexivity.
Qed.

(** X4.  The services command lists the bus names once and prints one
    line per discovered service, in their order, the line at position
    [j] showing [j] and the name; it exits with status 0 and sends
    nothing to any player. *)
Theorem services_listing (bus : Bus) (a : Args) :
  commands a = false ->
  command a = "services" ->
  exists t : list event,
    main bus a = (EListNames :: t, Exit 0)
    /\ List.length t = List.length (discovered bus)
    /\ existsb player_event t = false
    /\ forall (j : nat) (s : string),
         nth_error (discovered bus) j = Some s ->
         nth_error t j = Some (EPrint (service_line j s)).
Proof.
  intros Hc Hs. unfold main. rewrite Hc, Hs. cbn [String.eqb Ascii.eqb Bool.eqb].
  destruct (list_services_from_lines (discovered bus) 0) as (t & E & Hlen & Hpl & Hnth).
  exists t. unfold get_services. fold (discovered bus).
  unfold bind at 1. rewrite E. cbn.
  rewrite app_nil_r. repeat split; assumption.
Qed.

Lemma services_listing_witness :
  exists t : list event,
    main Sample.bus (Sample.args_of "services" [] 0 false) = (EListNames :: t, Exit 0)
    /\ List.length t = List.length (discovered Sample.bus)
    /\ existsb player_event t = false
    /\ forall (j : nat) (s : string),
         nth_error (discovered Sample.bus) j = Some s ->
         nth_error t j = Some (EPrint (service_line j s)).
Proof.
  apply (services_listing Sample.bus (Sample.args_of "services" [] 0 false));
    reflexivity.
Defined.

(** X5.  The index the services command prints before a name is the
    index that selects it: a run with that service index builds the
    object of that service. *)
Theorem listed_index_selects (bus : Bus) (a a' : Args) (j : nat) (s : string) :
  commands a = false ->
  command a = "services" ->
  nth_error (discovered bus) j = Some s ->
  service a' = Z.of_nat j ->
  In (EPrint (service_line j s)) (fst (main bus a))
  /\ select_service bus a'
     = ((EListNames :: init_events s ++ banner a' (handle_of bus s))%list,
        Ret (handle_of bus s)).
Proof.
  intros Hc Hs Hj Hi. split.
  - unfold main. rewrite Hc, Hs. cbn [String.eqb Ascii.eqb Bool.eqb].
    destruct (list_services_from_lines (discovered bus) 0) as (t & E & _ & _ & Hnth).
    unfold get_services. fold (discovered bus).
    unfold bind at 1. rewrite E. cbn. rewrite app_nil_r.
    right. eapply nth_error_In. apply Hnth. exact Hj.
  - apply select_service_found. rewrite Hi. apply py_index_nat. exact Hj.
Qed.

Lemma listed_index_selects_witness :
  In (EPrint "  1: org.mpris.MediaPlayer2.mpv")
     (fst (main Sample.bus (Sample.args_of "services" [] 0 false)))
  /\ select_service Sample.bus (Sample.args_of "play" [] 1 false)
     = ((EListNames :: init_events Sample.mpv
           ++ banner (Sample.args_of "play" [] 1 false) (handle_of Sample.bus Sample.mpv))%list,
        Ret (handle_of Sample.bus Sample.mpv)).
Proof.
  apply (listed_index_selects Sample.bus (Sample.args_of "services" [] 0 false)
           (Sample.args_of "play" [] 1 false) 1 Sample.mpv);
    reflexivity.
Defined.

(** X6.  The selection ends in the error message and [exit(1)] exactly
    when the index is below [- n] or at least [n], [n] the number of
    discovered services. *)
Theorem select_service_not_found_iff (bus : Bus) (a : Args) :
  select_service bus a = ([EListNames; EPrint (not_found_message a)], Exit 1)
  <-> (service a < - Z.of_nat (List.length (discovered bus))
       \/ Z.of_nat (List.length (discovered bus)) <= service a).
Proof.
  set (n := Z.of_nat (List.length (discovered bus))).
  split.
  - intros E.
    destruct (Z.lt_ge_cases (service a) (- n)) as [H1|H1]; [left; exact H1|].
    destruct (Z.lt_ge_cases (service a) n) as [H2|H2]; [|right; exact H2].
    exfalso.
    assert (Hx : exists x, py_index (discovered bus) (service a) = Ok x).
    { destruct (Z.lt_ge_cases (service a) 0) as [H0|H0].
      - destruct (py_index_from_end (discovered bus) (service a)) as (x & _ & Hx);
          [fold n; lia | exists x; exact Hx].
      - destruct (py_index_in_range (discovered bus) (service a)) as (x & _ & Hx);
          [fold n; lia | exists x; exact Hx]. }
    destruct Hx as (x & Hx).
    rewrite (select_service_found bus a x Hx) in E. discriminate E.
  - intros [H|H]; apply select_service_not_found.
    + apply py_index_before_start. exact H.
    + apply py_index_past_end. exact H.
Qed.

(** X7.  An index [i] in [0, n) and the index [i - n] select the same
    service: the two runs of the selection are equal. *)
Theorem negative_index_alias (bus : Bus) (a a' : Args) :
  0 <= service a < Z.of_nat (List.length (discovered bus)) ->
  service a' = service a - Z.of_nat (List.length (discovered bus)) ->
  verbose a' = verbose a ->
  select_service bus a' = select_service bus a.
Proof.
  intros Hr Hi Hv.
  destruct (py_index_in_range (discovered bus) (service a) Hr) as (x & Hx & E).
  destruct (py_index_from_end (discovered bus) (service a')) as (y & Hy & E'); [lia|].
  assert (y = x).
  { rewrite Hi in Hy.
    replace (Z.of_nat (List.length (discovered bus))
             + (service a - Z.of_nat (List.length (discovered bus))))
      with (service a) in Hy by lia.
    congruence. }
  subst y.
  rewrite (select_service_found bus a x E), (select_service_found bus a' x E').
  unfold banner. rewrite Hv. reflexivity.
Qed.

Lemma negative_index_alias_witness :
  select_service Sample.bus (Sample.args_of "play" [] (-2) false)
  = select_service Sample.bus (Sample.args_of "play" [] 0 false).
Proof.
  apply (negative_index_alias Sample.bus (Sample.args_of "play" [] 0 false)
           (Sample.args_of "play" [] (-2) false));
    [simpl; lia | reflexivity | reflexivity].
Defined.

(** ** What a run sends and how it ends *)

Section Confined.

Variable o : option string.

Lemma confined_ret {A : Type} (x : A) : confined o (ret x).
Proof. split; [constructor | exact I]. Qed.

Lemma confined_raise {A : Type} (e : exn) : confined o (@raise A e).
Proof. split; [constructor | exact I]. Qed.

Lemma confined_lift {A : Type} (r : result A) : confined o (lift r).
Proof. destruct r; [apply confined_ret | apply confined_raise]. Qed.

Lemma confined_print (line : string) : confined o (print line).
Proof. split; [repeat constructor | exact I]. Qed.

Lemma confined_exit {A : Type} (c : Z) : c = 0 \/ c = 1 -> confined o (@exit A c).
Proof. intros H. split; [constructor | exact H]. Qed.

Lemma confined_bind {A B : Type} (m : M A) (k : A -> M B) :
  confined o m -> (forall x, confined o (k x)) -> confined o (bind m k).
Proof.
  intros [Ht Ho] Hk. destruct m as [t [x|c|e]]; cbn [fst snd] in *.
  - specialize (Hk x). unfold bind. destruct (k x) as [t' o'].
    destruct Hk as [Ht' Ho']. split; [apply Forall_app; split; assumption | exact Ho'].
  - split; assumption.
  - split; assumption.
Qed.

Lemma confined_try {A : Type} (body : M A) (handler : exn -> option (M A)) :
  confined o body ->
  (forall e h, handler e = Some h -> confined o h) ->
  confined o (try_except body handler).
Proof.
  intros [Ht Ho] Hh. destruct body as [t [x|c|e]]; cbn [fst snd] in *.
  - split; assumption.
  - split; assumption.
  - unfold try_except. destruct (handler e) as [h|] eqn:E.
    + destruct (Hh e h E) as [Ht' Ho']. destruct h as [t' o'].
      split; [apply Forall_app; split; assumption | exact Ho'].
    + split; [assumption | exact I].
Qed.

Lemma confined_for_each {A : Type} (l : list A) (body : A -> M unit) :
  (forall x, confined o (body x)) -> confined o (for_each l body).
Proof.
  intros H. induction l as [|x l IH]; [apply confined_ret|].
  cbn [for_each]. apply confined_bind; [apply H | intros _; exact IH].
Qed.

End Confined.

Section ConfinedProgram.

Variable bus : Bus.
Variable a : Args.

Lemma confined_Get (self : MprisService.t) (interface prop : string) :
  confined (Some (MprisService.name self)) (MprisService.Get bus self interface prop).
Proof.
  unfold MprisService.Get. split.
  - repeat constructor.
  - cbn [snd]. destruct (properties_Get bus _ _ _); exact I.
Qed.

Lemma confined_player_method (self : MprisService.t) (method : string) (l : list string) :
  confined (Some (MprisService.name self)) (MprisService.player_method bus self method l).
Proof.
  unfold MprisService.player_method. split.
  - repeat constructor.
  - cbn [snd]. destruct (player_call bus _ _ _); exact I.
Qed.

Lemma confined_run_command (svc : MprisService.t) :
  confined (Some (MprisService.name svc)) (run_command bus a svc).
Proof.
  unfold run_command.
  repeat match goal with
         | |- confined _ (if ?b then _ else _) => destruct b
         end.
  - unfold status_command. apply confined_bind; [apply confined_Get|].
    intros status. destruct (playing_or_paused status); [|apply confined_print].
    apply confined_bind; [apply confined_Get|]. intros meta.
    apply confined_bind; [apply confined_Get|]. intros pos.
    apply confined_bind; [apply confined_lift|]. intros line.
    apply confined_bind; [apply confined_print|]. intros _.
    destruct (verbose a); [|apply confined_ret].
    unfold raw_listing.
    apply confined_bind; [apply confined_print|]. intros _.
    apply confined_bind; [apply confined_lift|]. intros keys.
    apply confined_for_each. intros k.
    apply confined_bind; [apply confined_lift|]. intros v. apply confined_print.
  - apply confined_bind; [apply confined_print | intros _; apply confined_player_method].
  - apply confined_bind; [apply confined_print | intros _; apply confined_player_method].
  - apply confined_bind; [apply confined_print | intros _; apply confined_player_method].
  - apply confined_bind; [apply confined_print | intros _; apply confined_player_method].
  - unfold open_command. apply confined_try.
    + apply confined_bind; [apply confined_lift|]. intros uri.
      apply confined_bind; [apply confined_print|]. intros _.
      apply confined_bind; [apply confined_lift|]. intros uri'.
      apply confined_player_method.
    + intros e h. unfold open_handler. destruct e; try discriminate.
      intros E. injection E as <-.
      apply confined_bind; [|intros _; apply confined_exit; right; reflexivity].
      destruct (endswith _ _); apply confined_print.
  - apply confined_bind; [apply confined_print|].
    intros _. apply confined_exit. right. reflexivity.
Qed.

Lemma confined_list_services_from (o : option string) (l : list string) :
  forall i, confined o (list_services_from i l).
Proof.
  induction l as [|s l IH]; intros i; [apply confined_ret|].
  cbn [list_services_from].
  apply confined_bind; [apply confined_print | intros _; apply IH].
Qed.

Lemma confined_main : confined (selected bus a) (main bus a).
Proof.
  unfold main. destruct (commands a).
  { apply confined_bind; [|intros _; apply confined_exit; left; reflexivity].
    unfold _list_commands.
    repeat (apply confined_bind; [apply confined_print | intros _]).
    apply confined_print. }
  destruct (String.eqb (command a) "services").
  { apply confined_bind; [split; [repeat constructor | exact I]|]. intros l.
    apply confined_bind; [apply confined_list_services_from|].
    intros _. apply confined_exit. left. reflexivity. }
  unfold selected.
  destruct (py_index (discovered bus) (service a)) as [s|e] eqn:E.
  - rewrite (select_service_found bus a s E). unfold bind.
    pose proof (confined_run_command (handle_of bus s)) as [Ht Ho].
    cbn [handle_of MprisService.name] in Ht, Ho.
    destruct (run_command bus a (handle_of bus s)) as [t o'].
    cbn [fst snd] in *. split; [|exact Ho].
    constructor; [exact I|].
    apply Forall_app. split; [|exact Ht].
    apply Forall_app. split.
    + unfold init_events. repeat constructor.
    + unfold banner. destruct (verbose a); repeat constructor.
  - assert (e = IndexError) by (eapply py_index_Err; exact E). subst e.
    rewrite (select_service_not_found bus a E). unfold bind.
    split; [repeat constructor | right; reflexivity].
Qed.

End ConfinedProgram.

(** X8.  Every request a run sends to a player (binding its object,
    reading a property, calling a method) goes to the one service the
    index selects, which is a name registered on the bus that starts
    with org.mpris.MediaPlayer2. *)
Theorem main_requests_selected_service_only (bus : Bus) (a : Args) :
  Forall (fun ev =>
            match event_target ev with
            | None => True
            | Some s =>
                py_index (discovered bus) (service a) = Ok s
                /\ In s (list_names bus)
                /\ String.prefix MprisService.mpris_base s = true
            end)
         (fst (main bus a)).
Proof.
  destruct (confined_main bus a) as [H _].
  eapply Forall_impl; [|exact H].
  intros ev. unfold aimed_at, selected.
  destruct (event_target ev) as [s|]; [|trivial].
  destruct (py_index (discovered bus) (service a)) as [x|e] eqn:E; [|discriminate].
  intros Hx. injection Hx as ->.
  split; [reflexivity|].
  apply py_index_Ok_In in E. unfold discovered in E.
  apply filter_In in E. exact E.
Qed.

(** X9.  Once the command line is parsed, the run of lines 136-214
    ends with exit status 0 or 1, whatever the bus and the parsed
    arguments (an uncaught exception ends the interpreter with 1). *)
Theorem main_exit_status (bus : Bus) (a : Args) :
  exit_status (snd (main bus a)) = 0 \/ exit_status (snd (main bus a)) = 1.
Proof.
  destruct (confined_main bus a) as [_ H].
  destruct (snd (main bus a)) as [[]|c|e]; cbn [exit_status].
  - left. reflexivity.
  - exact H.
  - right. reflexivity.
Qed.

(** X10.  For parsed arguments with the list-commands flag set, the run
    does not depend on the bus nor on the other arguments: it prints the
    seven lines of the catalogue, sends nothing, and exits with status
    0. *)
Theorem commands_flag_overrides (bus : Bus) (a : Args) :
  commands a = true ->
  main bus a = (map EPrint catalogue, Exit 0).
Proof.
  intros H. unfold main. rewrite H. reflexivity.
Qed.

Lemma commands_flag_overrides_witness :
  main Sample.bus (Sample.args_of "open" [] 9 true) = (map EPrint catalogue, Exit 0).
Proof.
  apply (commands_flag_overrides Sample.bus (Sample.args_of "open" [] 9 true)).
  reflexivity.
Defined.

(** X11.  A command word the dispatch does not know is rejected only
    after the selection: with an index in range the run builds the
    object of the selected service, probes it, then prints the unknown
    command and exits with status 1. *)
Theorem unknown_command_after_selection (bus : Bus) (a : Args) (s : string) :
  commands a = false ->
  existsb (String.eqb (command a)) known_commands = false ->
  selected bus a = Some s ->
  main bus a
  = ((EListNames :: init_events s ++ banner a (handle_of bus s)
        ++ [EPrint ("unknown command: " ++ command a)])%list,
     Exit 1).
Proof.
  intros Hc Hk Hs.
  cbn [existsb known_commands] in Hk.
  repeat (apply orb_false_elim in Hk; destruct Hk as [? Hk]).
  unfold selected in Hs.
  destruct (py_index (discovered bus) (service a)) as [x|] eqn:E; [|discriminate].
  injection Hs as ->.
  rewrite (main_selected bus a _ _ Hc ltac:(assumption) (select_service_found bus a s E)).
  unfold run_command.
  repeat match goal with
         | H : String.eqb (command a) _ = false |- _ => rewrite H; clear H
         end.
  unfold bind, print, exit. cbn [fst snd app].
  rewrite <- app_assoc. reflexivity.
Qed.

Lemma unknown_command_after_selection_witness :
  main Sample.bus (Sample.args_of "next" [] 1 false)
  = ((EListNames :: init_events Sample.mpv
        ++ banner (Sample.args_of "next" [] 1 false) (handle_of Sample.bus Sample.mpv)
        ++ [EPrint "unknown command: next"])%list,
     Exit 1).
Proof.
  apply (unknown_command_after_selection Sample.bus (Sample.args_of "next" [] 1 false) Sample.mpv);
    reflexivity.
Defined.

(** X12.  toggle, stop, play and pause print their announcement, then
    call PlayPause, Stop, Play or Pause without arguments; the arguments
    of the command line are not looked at, and a failure of the call is
    not handled: it leaves the command as the exception. *)
Theorem simple_command_runs
    (bus : Bus) (a : Args) (svc : MprisService.t) (line method : string) :
  In (command a, (line, method)) simple_commands ->
  run_command bus a svc
  = ([EPrint line; ECall (MprisService.name svc) method []],
     match player_call bus (MprisService.name svc) method [] with
     | Reply _ => Ret tt
     | Fault e => Raise (DBusException e)
     end).
Proof.
  intros H. unfold simple_commands in H. cbn [In] in H.
  unfold run_command, MprisService.player_method.
  destruct H as [H|[H|[H|[H|[]]]]]; injection H as Hc <- <-; rewrite <- Hc;
    cbn; destruct (player_call bus _ _ _); reflexivity.
Qed.

Lemma simple_command_runs_witness :
  run_command Sample.bus (Sample.args_of "pause" [] 0 false) (handle_of Sample.bus Sample.vlc)
  = ([EPrint "pausing playback"; ECall Sample.vlc "Pause" []], Ret tt).
Proof.
  apply (simple_command_runs Sample.bus (Sample.args_of "pause" [] 0 false)
           (handle_of Sample.bus Sample.vlc) "pausing playback" "Pause").
  simpl. auto.
Defined.

(** X13.  The open command uses its first argument only: further
    arguments are ignored, and when the call succeeds the command prints
    the announcement alone. *)
Theorem open_ignores_extra_arguments
    (bus : Bus) (a : Args) (svc : MprisService.t)
    (uri : string) (rest : list string) (u : unit) :
  command a = "open" ->
  args a = uri :: rest ->
  player_call bus (MprisService.name svc) "OpenUri" [uri] = Reply u ->
  run_command bus a svc
  = ([EPrint ("opening " ++ uri); ECall (MprisService.name svc) "OpenUri" [uri]],
     Ret tt).
Proof.
  intros Hc Ha He. rewrite run_command_open by exact Hc.
  unfold open_command, MprisService.player_method. rewrite Ha.
  change (py_index (uri :: rest) 0) with (Ok uri).
  cbn [lift ret bind app print]. rewrite He. reflexivity.
Qed.

Lemma open_ignores_extra_arguments_witness :
  run_command answering_bus (Sample.args_of "open" ["a.ogg"; "b.ogg"] 0 false)
    (MprisService.mk "org.mpris.MediaPlayer2.x" true true)
  = ([EPrint "opening a.ogg"; ECall "org.mpris.MediaPlayer2.x" "OpenUri" ["a.ogg"]],
     Ret tt).
Proof.
  apply (open_ignores_extra_arguments answering_bus
           (Sample.args_of "open" ["a.ogg"; "b.ogg"] 0 false)
           (MprisService.mk "org.mpris.MediaPlayer2.x" true true)
           "a.ogg" ["b.ogg"] tt);
    reflexivity.
Defined.

(** ** Further properties of the commands *)

Section Strings.

Lemma substring_all (s : string) : substring 0 (String.length s) s = s.
Proof. induction s as [|c s IH]; [reflexivity|]. cbn. rewrite IH. reflexivity. Qed.

Lemma length_append (p s : string) :
  String.length (p ++ s) = (String.length p + String.length s)%nat.
Proof. induction p as [|c p IH]; [reflexivity|]. cbn. rewrite IH. reflexivity. Qed.

Lemma substring_skip (p s : string) :
  substring (String.length p) (String.length s) (p ++ s) = s.
Proof. induction p as [|c p IH]; [apply substring_all|]. cbn. exact IH. Qed.

Lemma substring_split (s : string) :
  forall i : nat,
    (i <= String.length s)%nat ->
    s = substring 0 i s ++ substring i (String.length s - i) s.
Proof.
  induction s as [|c s IH]; intros i Hi.
  - cbn in Hi. assert (i = 0%nat) by lia. subst i. reflexivity.
  - destruct i as [|i].
    + cbn [substring append]. rewrite Nat.sub_0_r.
      change (String c s = substring 0 (String.length (String c s)) (String c s)).
      rewrite substring_all. reflexivity.
    + cbn [substring append String.length]. cbn [Nat.sub].
      rewrite <- IH by (cbn in Hi; lia). reflexivity.
Qed.

(** [endswith] holds exactly of the strings that are some prefix
    followed by the suffix. *)
Lemma endswith_iff (s suffix : string) :
  endswith s suffix = true <-> exists p, s = p ++ suffix.
Proof.
  unfold endswith. split.
  - intros H. apply andb_true_iff in H. destruct H as [Hk He].
    apply Nat.leb_le in Hk. apply String.eqb_eq in He.
    exists (substring 0 (String.length s - String.length suffix) s).
    pose proof (substring_split s (String.length s - String.length suffix) ltac:(lia)) as Hsp.
    replace (String.length s - (String.length s - String.length suffix))%nat
      with (String.length suffix) in Hsp by lia.
    rewrite He in Hsp. exact Hsp.
  - intros [p ->]. rewrite length_append.
    apply andb_true_iff. split; [apply Nat.leb_le; lia|].
    replace (String.length p + String.length suffix - String.length suffix)%nat
      with (String.length p) by lia.
    rewrite substring_skip. apply String.eqb_refl.
Qed.

End Strings.

(** X14.  When OpenUri fails, the dedicated message is printed exactly
    when the error name is some prefix followed by UnknownMethod, in
    whatever namespace. *)
Theorem open_unsupported_iff
    (bus : Bus) (a : Args) (svc : MprisService.t)
    (uri : string) (rest : list string) (e : dbus_error) :
  command a = "open" ->
  args a = uri :: rest ->
  player_call bus (MprisService.name svc) "OpenUri" [uri] = Fault e ->
  In (EPrint (unsupported_message svc)) (fst (run_command bus a svc))
  <-> exists p, dbus_name e = p ++ "UnknownMethod".
Proof.
  intros Hc Ha He. rewrite <- endswith_iff.
  rewrite run_command_open by exact Hc.
  unfold open_command, MprisService.player_method. rewrite Ha.
  change (py_index (uri :: rest) 0) with (Ok uri).
  cbn [lift ret bind app print]. rewrite He.
  cbn [try_except open_handler].
  destruct (endswith (dbus_name e) "UnknownMethod").
  - split; [reflexivity|]. intros _. cbn. right. right. left. reflexivity.
  - split; [|discriminate]. cbn. unfold unsupported_message.
    intros [H|[H|[H|[]]]]; discriminate H.
Qed.

Lemma open_unsupported_iff_witness :
  In (EPrint (unsupported_message (handle_of Sample.bus Sample.mpv)))
     (fst (run_command Sample.bus (Sample.args_of "open" ["a.ogg"; "b.ogg"] 1 false)
             (handle_of Sample.bus Sample.mpv)))
  <-> exists p, dbus_name Sample.unknown_method = p ++ "UnknownMethod".
Proof.
  apply (open_unsupported_iff Sample.bus (Sample.args_of "open" ["a.ogg"; "b.ogg"] 1 false)
           (handle_of Sample.bus Sample.mpv) "a.ogg" ["b.ogg"] Sample.unknown_method);
    reflexivity.
Defined.

Lemma prefix_iff (p s : string) :
  String.prefix p s = true <-> exists x, s = p ++ x.
Proof.
  revert s. induction p as [|c p IH]; intros s.
  - split; [intros _; exists s; reflexivity | intros _; destruct s; reflexivity].
  - destruct s as [|c' s]; cbn [String.prefix].
    + split; [discriminate | intros [x H]; discriminate H].
    + destruct (ascii_dec c c') as [<-|Hc].
      * rewrite IH. split; intros [x H]; exists x.
        -- cbn. rewrite H. reflexivity.
        -- cbn in H. injection H as H. exact H.
      * split; [discriminate|]. intros [x H]. cbn in H. injection H as H _.
        congruence.
Qed.

(** X15.  [get_services] lists the bus names once and returns exactly
    the registered names that are org.mpris.MediaPlayer2 followed by
    anything, a dot or not. *)
Theorem get_services_iff (bus : Bus) (s : string) :
  exists l : list string,
    get_services bus = ([EListNames], Ret l)
    /\ (In s l <->
        In s (list_names bus) /\ exists x, s = MprisService.mpris_base ++ x).
Proof.
  eexists. split; [reflexivity|].
  rewrite filter_In, prefix_iff. reflexivity.
Qed.

(** X16.  The title displayed is the title when it is a non-empty
    string, otherwise the URL, and the word None when there is neither
    a title nor a URL. *)
Theorem title_display
    (bus : Bus) (d : list (string * variant)) (title url : option string) :
  dict_get d "xesam:title" = option_map VStr title ->
  dict_get d "xesam:url" = option_map VStr url ->
  exists t : option variant,
    title_of (VDict d) = Ok t /\ py_str bus t = display_title title url.
Proof.
  intros Ht Hu. unfold title_of, meta_get. cbn [rbind]. rewrite Ht, Hu.
  eexists. split; [reflexivity|].
  destruct title as [[|c t]|], url as [u|]; reflexivity.
Qed.

Lemma title_display_witness :
  exists t : option variant,
    title_of (VDict [("xesam:title", VStr ""); ("xesam:url", VStr "http://radio/")]) = Ok t
    /\ py_str Sample.bus t = "http://radio/".
Proof.
  apply (title_display Sample.bus
           [("xesam:title", VStr ""); ("xesam:url", VStr "http://radio/")]
           (Some "") (Some "http://radio/"));
    reflexivity.
Defined.

Lemma utf8_chars_cons (c : ascii) (s : string) :
  exists first others, utf8_chars (String c s) = first :: others.
Proof.
  cbn [utf8_chars]. destruct (starts_with_continuation s).
  - destruct (utf8_chars s); eexists; eexists; reflexivity.
  - eexists; eexists; reflexivity.
Qed.

(** Splitting a string into its characters loses nothing. *)
Lemma utf8_chars_concat (s : string) : String.concat "" (utf8_chars s) = s.
Proof.
  induction s as [|c s IH]; [reflexivity|].
  cbn [utf8_chars]. destruct (starts_with_continuation s).
  - destruct (utf8_chars s) as [|first others].
    + cbn in IH. subst s. reflexivity.
    + rewrite <- IH. destruct others; reflexivity.
  - destruct (utf8_chars s) as [|first others] eqn:E.
    + cbn in IH. subst s. reflexivity.
    + rewrite <- IH. reflexivity.
Qed.

(** The characters of an ASCII string are its bytes. *)
Lemma utf8_chars_ascii (s : string) :
  all_ascii s = true -> utf8_chars s = char_strings s.
Proof.
  unfold all_ascii, char_strings.
  induction s as [|c s IH]; [reflexivity|].
  cbn [list_ascii_of_string forallb map utf8_chars].
  intros H. apply andb_true_iff in H. destruct H as [_ H].
  rewrite (IH H).
  destruct s as [|c' s]; [reflexivity|].
  cbn [list_ascii_of_string forallb] in H.
  apply andb_true_iff in H. destruct H as [Hc _].
  cbn [starts_with_continuation].
  destruct c' as [b0 b1 b2 b3 b4 b5 b6 b7]. cbn [utf8_continuation].
  destruct b7; [discriminate Hc|]. reflexivity.
Qed.

(** X17.  An artist field that is a non-empty string, not a list, is
    taken character by character: the artist displayed is its
    characters joined with ", " (for an ASCII string, its bytes; a
    character of several UTF-8 bytes stays whole). *)
Theorem artist_string_split (d : list (string * variant)) (s : string) :
  dict_get d "xesam:artist" = Some (VStr s) ->
  s <> "" ->
  artist_of (VDict d) = Ok (VStr (String.concat ", " (utf8_chars s)))
  /\ String.concat "" (utf8_chars s) = s
  /\ (all_ascii s = true -> utf8_chars s = char_strings s).
Proof.
  intros H Hs. split; [|split; [apply utf8_chars_concat | apply utf8_chars_ascii]].
  unfold artist_of, meta_get. cbn [rbind]. rewrite H.
  destruct s as [|c s]; [contradiction|].
  cbn [truthy String.eqb negb py_iter rbind].
  destruct (utf8_chars_cons c s) as (first & others & ->).
  cbn [map]. apply join_artists_strings.
Qed.

Lemma artist_string_split_witness :
  artist_of (VDict [("xesam:artist", VStr accented)]) = Ok (VStr (e_acute ++ ", a"))
  /\ String.concat "" (utf8_chars accented) = accented
  /\ (all_ascii accented = true -> utf8_chars accented = char_strings accented).
Proof.
  apply (artist_string_split [("xesam:artist", VStr accented)] accented);
    [reflexivity | discriminate].
Defined.

Lemma dict_get_NoDup (d : list (string * variant)) :
  NoDup (map fst d) ->
  forall kv, In kv d -> dict_get d (fst kv) = Some (snd kv).
Proof.
  induction d as [|[k v] d IH]; intros Hn kv Hin; [destruct Hin|].
  cbn [map fst] in Hn. inversion Hn as [|? ? Hk Hn']; subst.
  cbn [dict_get]. destruct Hin as [<-|Hin].
  - cbn [fst snd]. rewrite String.eqb_refl. reflexivity.
  - destruct (String.eqb k (fst kv)) eqn:E.
    + apply String.eqb_eq in E. subst k. exfalso. apply Hk.
      apply in_map. exact Hin.
    + apply IH; assumption.
Qed.

Lemma raw_lines_of (bus : Bus) (d l : list (string * variant)) :
  (forall kv, In kv l -> dict_get d (fst kv) = Some (snd kv)) ->
  for_each (map fst l)
    (fun k => v <- lift (meta_get (VDict d) k) ;;
              print ("  " ++ k ++ tab ++ "= " ++ py_str bus v))
  = (map (fun kv => EPrint (raw_line bus kv)) l, Ret tt).
Proof.
  induction l as [|kv l IH]; intros H; [reflexivity|].
  cbn [map for_each]. rewrite IH by (intros kv' Hin; apply H; right; exact Hin).
  cbn [meta_get lift]. rewrite (H kv) by (left; reflexivity).
  reflexivity.
Qed.

(** X18.  For metadata with distinct keys the raw listing is its heading
    followed by one line per entry, in the order of the entries, showing
    the key and the value. *)
Theorem raw_listing_lines (bus : Bus) (d : list (string * variant)) :
  NoDup (map fst d) ->
  raw_listing bus (VDict d)
  = (EPrint "Raw metadata listing:" :: map (fun kv => EPrint (raw_line bus kv)) d,
     Ret tt).
Proof.
  intros H. unfold raw_listing. cbn [meta_keys lift].
  unfold bind at 2. cbn [ret app].
  rewrite (raw_lines_of bus d d (dict_get_NoDup d H)).
  reflexivity.
Qed.

Lemma raw_listing_lines_witness :
  raw_listing Sample.bus (VDict Sample.metadata)
  = (EPrint "Raw metadata listing:"
       :: map (fun kv => EPrint (raw_line Sample.bus kv)) Sample.metadata,
     Ret tt).
Proof.
  apply (raw_listing_lines Sample.bus Sample.metadata).
  repeat constructor; simpl; intuition discriminate.
Defined.

(** X19.  For a playing or paused player whose metadata has a length
    below [2 ^ 53] and not zero, the line is the status, the title in
    double quotes, "by" and the artist, and "(elapsed/total)", both
    durations in the clock format. *)
Theorem status_line_format
    (bus : Bus) (st : string) (d : list (string * variant))
    (title url : option string) (field : option (list string)) (length pos : Z) :
  dict_get d "xesam:title" = option_map VStr title ->
  dict_get d "xesam:url" = option_map VStr url ->
  dict_get d "xesam:artist" = artist_entry field ->
  dict_get d "mpris:length" = Some (VInt length) ->
  0 < length < 2 ^ 53 ->
  0 <= pos < 2 ^ 53 ->
  status_line bus (VStr st) (VDict d) (VInt pos)
  = Ok (st ++ ": " ++ dquote ++ display_title title url ++ dquote
        ++ " by " ++ spec_artist field
        ++ " (" ++ clock_string pos ++ "/" ++ clock_string length ++ ")").
Proof.
  intros Ht Hu Ha Hl Hlen Hpos. unfold status_line.
  rewrite (artist_of_field d field Ha).
  unfold len_str, title_of, meta_get. cbn [rbind]. rewrite Ht, Hu, Hl.
  cbn [truthy].
  destruct (length =? 0) eqn:E; [apply Z.eqb_eq in E; lia|].
  cbn [negb]. unfold track_length_string_of. cbn [as_int rbind].
  rewrite !track_length_string_below_2p53 by lia.
  cbn [rbind]. rewrite !spec_is_clock.
  cbn [py_str]. do 2 f_equal.
  replace (py_str bus (py_or (option_map VStr title) (option_map VStr url)))
    with (display_title title url)
    by (destruct title as [[|c t]|], url as [u|]; reflexivity).
  reflexivity.
Qed.

Lemma status_line_format_witness :
  status_line Sample.bus (VStr "Paused")
    (VDict [("xesam:url", VStr "file:///a.ogg"); ("mpris:length", VInt 61000000)])
    (VInt 1500)
  = Ok ("Paused: " ++ dquote ++ "file:///a.ogg" ++ dquote
        ++ " by [Unknown] (0:00.001500/1:01)").
Proof.
  apply (status_line_format Sample.bus "Paused"
           [("xesam:url", VStr "file:///a.ogg"); ("mpris:length", VInt 61000000)]
           None (Some "file:///a.ogg") None 61000000 1500);
    try reflexivity; simpl; lia.
Defined.

Lemma raw_listing_returns (bus : Bus) (d : list (string * variant)) :
  snd (raw_listing bus (VDict d)) = Ret tt.
Proof.
  unfold raw_listing. cbn [meta_keys lift].
  unfold bind at 2. cbn [ret app print].
  unfold bind at 1.
  match goal with |- context [for_each ?l ?f] => set (body := f); set (keys := l) end.
  assert (H : snd (for_each keys body) = Ret tt).
  { clearbody keys. induction keys as [|k keys IH]; [reflexivity|].
    cbn [for_each]. unfold body at 1. cbn [meta_get lift ret bind print app].
    destruct (for_each keys body) as [t o]. cbn [snd] in IH. subst o. reflexivity. }
  destruct (for_each keys body) as [t o]. cbn [snd] in *. subst o. reflexivity.
Qed.

Lemma status_line_dict (bus : Bus) (status meta pos : variant) (line : string) :
  status_line bus status meta pos = Ok line -> exists d, meta = VDict d.
Proof.
  destruct meta; try discriminate. intros _. eexists. reflexivity.
Qed.

(** X20.  The status command prints all or nothing: when it ends with an
    exception, of a remote read or of the formatting, it has printed no
    line. *)
Theorem status_all_or_nothing
    (bus : Bus) (a : Args) (svc : MprisService.t) (e : exn) :
  command a = "status" ->
  snd (run_command bus a svc) = Raise e ->
  prints (fst (run_command bus a svc)) = [].
Proof.
  intros Hc. rewrite run_command_status by exact Hc.
  unfold status_command, MprisService.get_player_property, MprisService.Get.
  destruct (properties_Get bus _ _ "PlaybackStatus") as [status|]; [|reflexivity].
  cbn [bind app]. destruct (playing_or_paused status).
  2:{ cbn. discriminate. }
  destruct (properties_Get bus _ _ "Metadata") as [meta|]; [|reflexivity].
  cbn [bind app].
  destruct (properties_Get bus _ _ "Position") as [pos|]; [|reflexivity].
  cbn [bind app].
  destruct (status_line bus status meta pos) as [line|e'] eqn:E; [|reflexivity].
  destruct (status_line_dict _ _ _ _ _ E) as [d ->].
  cbn [lift ret bind app print].
  destruct (verbose a); [|cbn; discriminate].
  pose proof (raw_listing_returns bus d) as R.
  destruct (raw_listing bus (VDict d)) as [t o]. cbn [snd] in *. subst o.
  discriminate.
Qed.

Lemma status_all_or_nothing_witness :
  prints (fst (run_command refusing_bus (Sample.args_of "status" [] 0 false)
                 (MprisService.mk Sample.vlc true true)))
  = [].
Proof.
  apply (status_all_or_nothing refusing_bus (Sample.args_of "status" [] 0 false)
           (MprisService.mk Sample.vlc true true) (DBusException Sample.no_reply));
    reflexivity.
Defined.
